(** * Files manager: session and file-hierarchy controllers

    A shallow embedding of [controllers/AuthController.js],
    [controllers/FilesController.js] and [utils/redis.js].  The Express
    handlers are asynchronous functions over three external stores (the
    Redis cache, the MongoDB collections [users] and [files], the local
    disk); they are written here in a small state-and-early-exit monad
    over an explicit [World]. *)

From Stdlib Require Import ZArith Ascii String List Bool Lia.
From stdpp Require Import base decidable option list gmap strings.

Local Open Scope string_scope.
Local Open Scope nat_scope.

(** ** JavaScript values carried by a request body

    [req.body] is parsed JSON.  The fields the handlers read are modelled
    as JSON scalars; [JUndefined] stands for an absent field.  Numbers are
    the integer-valued ones; strings are made of the characters with a
    code below 256, one [ascii] each, as a header, an identifier, a
    base64 text or the bytes of a buffer are. *)

Inductive JSValue : Type :=
  | JUndefined
  | JNull
  | JBool (b : bool)
  | JNum (n : Z)
  | JStr (s : string).

#[global] Instance JSValue_eq_dec : EqDecision JSValue.
Proof. solve_decision. Defined.

(** [ToBoolean]: the test behind [!v] and [a || b]. *)
Definition truthy (v : JSValue) : bool :=
  match v with
  | JUndefined | JNull => false
  | JBool b => b
  | JNum n => negb (n =? 0)%Z
  | JStr s => negb (String.eqb s "")
  end.

(** Truthiness of a header, query parameter or cache reply: a string or
    [undefined]/[null]. *)
Definition truthy_str (o : option string) : bool :=
  match o with
  | None => false
  | Some s => negb (String.eqb s "")
  end.

(** Destructuring default, [{ x = d } = obj]: only [undefined] is replaced. *)
Definition default_to (d v : JSValue) : JSValue :=
  match v with JUndefined => d | _ => v end.

(** [v !== 0]. *)
Definition strict_ne_zero (v : JSValue) : bool :=
  match v with JNum n => negb (n =? 0)%Z | _ => true end.

(** [list.includes(v)] for a list of string literals. *)
Definition includes (l : list string) (v : JSValue) : bool :=
  match v with
  | JStr s => existsb (String.eqb s) l
  | _ => false
  end.

(** ** Strings *)

(** [s.split(sep)] for a one-character separator; the result is never
    empty: [''.split(':')] is [['']]. *)
Fixpoint split (sep : ascii) (s : string) : list string :=
  match s with
  | EmptyString => [EmptyString]
  | String c rest =>
      if Ascii.eqb c sep then EmptyString :: split sep rest
      else match split sep rest with
           | [] => [String c EmptyString]
           | piece :: pieces => String c piece :: pieces
           end
  end.

(** [s.startsWith(p)]. *)
Definition startsWith (s p : string) : bool := String.prefix p s.

(** [buf.toString('ascii')]: every byte loses its high bit. *)
Definition ascii7 (c : ascii) : ascii :=
  match c with
  | Ascii b0 b1 b2 b3 b4 b5 b6 _ => Ascii b0 b1 b2 b3 b4 b5 b6 false
  end.

Fixpoint toString_ascii (buf : string) : string :=
  match buf with
  | EmptyString => EmptyString
  | String c rest => String (ascii7 c) (toString_ascii rest)
  end.

(** ** Numbers

    The numbers the handlers compute with are binary64 values that are
    integers or infinite.  They are written as integers: a finite one as
    itself, [Infinity] as [2 ^ 1024], the first magnitude beyond the
    largest finite value, and [-Infinity] as its opposite.

    [binary64 z] is the value nearest to the integer [z], ties to the
    even significand: what a decimal numeral or an arithmetic result
    that is exactly [z] comes to.  Up to [MAX_SAFE_INTEGER] in magnitude
    it is [z] itself. *)
Definition MAX_SAFE_INTEGER : Z := 2 ^ 53 - 1.

Definition binary64 (z : Z) : Z :=
  let m := Z.abs z in
  let e := Z.max 0 (Z.log2 m - 52) in
  let q := Z.shiftr m e in
  let r := (m - Z.shiftl q e)%Z in
  let up := (Z.shiftl 1 e <? 2 * r)%Z || ((Z.shiftl 1 e =? 2 * r)%Z && Z.odd q) in
  (Z.sgn z * Z.min (Z.shiftl (if up then q + 1 else q) e) (2 ^ 1024))%Z.

(** [a * b] on two such numbers, [b] finite and not zero. *)
Definition Number_times (a b : Z) : Z := binary64 (a * b).

(** [parseInt(s, 10)]: leading white space, an optional sign, then the
    longest run of decimal digits, read as a number; [None] is [NaN].
    White space is the [StrWhiteSpaceChar] of the language: among the
    characters of the model, TAB, LF, VT, FF, CR, the space and the
    no-break space U+00A0. *)
Definition is_space (c : ascii) : bool :=
  let n := nat_of_ascii c in
  (n =? 32) || ((9 <=? n) && (n <=? 13)) || (n =? 160).

Definition digit_of (c : ascii) : option Z :=
  let n := nat_of_ascii c in
  if (48 <=? n) && (n <=? 57) then Some (Z.of_nat (n - 48)) else None.

Fixpoint skip_spaces (s : string) : string :=
  match s with
  | String c rest => if is_space c then skip_spaces rest else s
  | EmptyString => s
  end.

Fixpoint digits_value (acc : option Z) (s : string) : option Z :=
  match s with
  | EmptyString => acc
  | String c rest =>
      match digit_of c with
      | Some d => digits_value (Some (10 * default 0%Z acc + d)%Z) rest
      | None => acc
      end
  end.

Definition parseInt (o : option string) : option Z :=
  match o with
  | None => None
  | Some s =>
      binary64 <$>
        match skip_spaces s with
        | String "-" rest => Z.opp <$> digits_value None rest
        | String "+" rest => digits_value None rest
        | t => digits_value None t
        end
  end.

(** ** ObjectId

    The driver's [ObjectId] is a 12-byte value printed as 24 lower-case
    hexadecimal digits.  The constructor, called as a function on a
    string, accepts 24 hexadecimal digits or any 12-byte string and
    throws on every other string; on [undefined], [null] or a number it
    generates a new identifier; on a boolean it throws. *)

Definition is_lower_hex (c : ascii) : bool :=
  let n := nat_of_ascii c in
  ((48 <=? n) && (n <=? 57)) || ((97 <=? n) && (n <=? 102)).

Definition is_hex (c : ascii) : bool :=
  let n := nat_of_ascii c in
  is_lower_hex c || ((65 <=? n) && (n <=? 70)).

Definition lower_hex (c : ascii) : ascii :=
  let n := nat_of_ascii c in
  if (65 <=? n) && (n <=? 70) then ascii_of_nat (n + 32) else c.

Definition hex_digit (n : nat) : ascii :=
  if n <? 10 then ascii_of_nat (48 + n) else ascii_of_nat (87 + n).

Fixpoint string_forall (p : ascii → bool) (s : string) : bool :=
  match s with
  | EmptyString => true
  | String c rest => p c && string_forall p rest
  end.

Fixpoint string_map (f : ascii → ascii) (s : string) : string :=
  match s with
  | EmptyString => EmptyString
  | String c rest => String (f c) (string_map f rest)
  end.

(** The hexadecimal print of a byte string, two digits per byte. *)
Fixpoint hex_of_bytes (s : string) : string :=
  match s with
  | EmptyString => EmptyString
  | String c rest =>
      let n := nat_of_ascii c in
      String (hex_digit (n / 16)) (String (hex_digit (n mod 16)) (hex_of_bytes rest))
  end.

Definition oid_hexb (h : string) : bool :=
  (String.length h =? 24) && string_forall is_lower_hex h.

Record ObjectID : Type := MkObjectID {
  toHexString : string;
  oid_wf : Is_true (oid_hexb toHexString)
}.

#[global] Instance ObjectID_eq_dec : EqDecision ObjectID.
Proof.
  intros [ha pa] [hb pb]. destruct (decide (ha = hb)) as [e | n].
  - left. subst hb. f_equal. apply proof_irrel.
  - right. intros E. apply n. by injection E.
Defined.

Definition mk_oid (h : string) : option ObjectID :=
  match decide (Is_true (oid_hexb h)) with
  | left p => Some (MkObjectID h p)
  | right _ => None
  end.

(** [ObjectId(s)] on a string; [None] is the thrown error. *)
Definition ObjectId_of_string (s : string) : option ObjectID :=
  if String.length s =? 12 then mk_oid (hex_of_bytes s)
  else if (String.length s =? 24) && string_forall is_hex s
       then mk_oid (string_map lower_hex s)
       else None.

(** ** Documents and stores *)

(** A document of the [users] collection. *)
Record User : Type := {
  user_id : ObjectID;
  email : string;
  password : string
}.

(** [parentId] of a file document: the number [0] or an [ObjectId]. *)
Inductive ParentRef : Type :=
  | Root
  | Parent (p : ObjectID).

#[global] Instance ParentRef_eq_dec : EqDecision ParentRef.
Proof. solve_decision. Defined.

(** The object literal [fileDocument] of [postUpload]; [localPath] is
    absent until it is assigned. *)
Record FileDocument : Type := {
  userId : ObjectID;
  name : JSValue;
  type : JSValue;
  isPublic : JSValue;
  parentId : ParentRef;
  localPath : option string
}.

#[global] Instance FileDocument_eq_dec : EqDecision FileDocument.
Proof. solve_decision. Defined.

(** A stored document of the [files] collection. *)
Record FileDoc : Type := {
  _id : ObjectID;
  document :> FileDocument
}.

#[global] Instance FileDoc_eq_dec : EqDecision FileDoc.
Proof. solve_decision. Defined.

(** A Redis key: its value and its time to live in seconds, if any. *)
Record CacheEntry : Type := {
  entry_value : string;
  entry_ttl : option Z
}.

(** A job of the [fileQueue] queue. *)
Record Job : Type := {
  job_userId : string;
  job_fileId : string
}.

(** Everything a handler can read or change.  [oid_src] and [uuid_src]
    are the sources of generated identifiers; [oid_next] and [uuid_next]
    count how many were drawn. *)
Record World : Type := {
  users : list User;
  files : list FileDoc;
  cache : gmap string CacheEntry;
  disk : gmap string string;
  fileQueue : list Job;
  FOLDER_PATH : option string;
  oid_src : nat → ObjectID;
  oid_next : nat;
  uuid_src : nat → string;
  uuid_next : nat
}.

Definition with_files (fs : list FileDoc) (w : World) : World :=
  {| users := users w; files := fs; cache := cache w; disk := disk w;
     fileQueue := fileQueue w; FOLDER_PATH := FOLDER_PATH w;
     oid_src := oid_src w; oid_next := oid_next w;
     uuid_src := uuid_src w; uuid_next := uuid_next w |}.

Definition with_cache (c : gmap string CacheEntry) (w : World) : World :=
  {| users := users w; files := files w; cache := c; disk := disk w;
     fileQueue := fileQueue w; FOLDER_PATH := FOLDER_PATH w;
     oid_src := oid_src w; oid_next := oid_next w;
     uuid_src := uuid_src w; uuid_next := uuid_next w |}.

Definition with_disk (d : gmap string string) (w : World) : World :=
  {| users := users w; files := files w; cache := cache w; disk := d;
     fileQueue := fileQueue w; FOLDER_PATH := FOLDER_PATH w;
     oid_src := oid_src w; oid_next := oid_next w;
     uuid_src := uuid_src w; uuid_next := uuid_next w |}.

Definition with_fileQueue (q : list Job) (w : World) : World :=
  {| users := users w; files := files w; cache := cache w; disk := disk w;
     fileQueue := q; FOLDER_PATH := FOLDER_PATH w;
     oid_src := oid_src w; oid_next := oid_next w;
     uuid_src := uuid_src w; uuid_next := uuid_next w |}.

Definition with_oid_next (n : nat) (w : World) : World :=
  {| users := users w; files := files w; cache := cache w; disk := disk w;
     fileQueue := fileQueue w; FOLDER_PATH := FOLDER_PATH w;
     oid_src := oid_src w; oid_next := n;
     uuid_src := uuid_src w; uuid_next := uuid_next w |}.

Definition with_uuid_next (n : nat) (w : World) : World :=
  {| users := users w; files := files w; cache := cache w; disk := disk w;
     fileQueue := fileQueue w; FOLDER_PATH := FOLDER_PATH w;
     oid_src := oid_src w; oid_next := oid_next w;
     uuid_src := uuid_src w; uuid_next := n |}.

(** ** Responses and the handler monad *)

Inductive Payload : Type :=
  | PError (error : string)
  | PToken (token : string)
  | PEmpty
  | PCreated (id : ObjectID) (doc : FileDocument)
  | PFile (file : FileDoc)
  | PFiles (page : list FileDoc)
  | PNull
  | PData (contentType : string) (fileData : string).

(** What a call of a handler comes to: a response sent with a status, or
    a rejected promise (an exception thrown inside the [async] function,
    which sends nothing). *)
Inductive Outcome : Type :=
  | Responded (status : nat) (payload : Payload)
  | Rejected (err : string).

(** A handler either goes on with a value or has returned. *)
Inductive Exit (A : Type) : Type :=
  | Continue (a : A)
  | Return (o : Outcome).
Arguments Continue {A} a.
Arguments Return {A} o.

Definition Async (A : Type) : Type := World → Exit A * World.

#[global] Instance Async_ret : MRet Async := λ A a w, (Continue a, w).

#[global] Instance Async_bind : MBind Async := λ A B k m w,
  match m w with
  | (Continue a, w') => k a w'
  | (Return o, w') => (Return o, w')
  end.

(** [return res.status(s).json(p)]. *)
Definition respond {A} (s : nat) (p : Payload) : Async A :=
  λ w, (Return (Responded s p), w).

(** [throw]. *)
Definition throw {A} (err : string) : Async A :=
  λ w, (Return (Rejected err), w).

(** [if (c) { m }], where [m] may return. *)
Definition when (c : bool) (m : Async unit) : Async unit :=
  if c then m else mret tt.

(** Runs a handler to its outcome. *)
Definition run (h : Async Outcome) (w : World) : Outcome * World :=
  match h w with
  | (Continue o, w') => (o, w')
  | (Return o, w') => (o, w')
  end.

(** ** The external clients *)

(** A generated [ObjectId]: the next one of the source. *)
Definition generate : Async ObjectID :=
  λ w, (Continue (oid_src w (oid_next w)), with_oid_next (S (oid_next w)) w).

(** [ObjectId(v)]. *)
Definition ObjectId (v : JSValue) : Async ObjectID :=
  match v with
  | JStr s =>
      match ObjectId_of_string s with
      | Some o => mret o
      | None => throw "Argument passed in must be a single String of 12 bytes or a string of 24 hex characters"
      end
  | JUndefined | JNull | JNum _ => generate
  | JBool _ => throw "Argument passed in must be a single String of 12 bytes or a string of 24 hex characters"
  end.

(** [uuidv4()]. *)
Definition uuidv4 : Async string :=
  λ w, (Continue (uuid_src w (uuid_next w)), with_uuid_next (S (uuid_next w)) w).

(** [utils/redis.js]. *)
Module RedisClient.

Definition get (key : string) : Async (option string) :=
  λ w, (Continue (entry_value <$> cache w !! key), w).

Definition setAsync (key value : string) : Async unit :=
  λ w, (Continue tt,
        with_cache (<[key := {| entry_value := value; entry_ttl := None |}]> (cache w)) w).

(** [EXPIRE key seconds]: the key, if there, gets the time to live; one
    that is not positive deletes the key. *)
Definition expire (key : string) (duration : Z) : Async unit :=
  λ w, (Continue tt,
        with_cache (if (0 <? duration)%Z
                    then alter (λ e, {| entry_value := entry_value e;
                                        entry_ttl := Some duration |}) key (cache w)
                    else delete key (cache w)) w).

Definition set (key value : string) (duration : Z) : Async unit :=
  setAsync key value;;
  expire key duration.

Definition del (key : string) : Async unit :=
  λ w, (Continue tt, with_cache (delete key (cache w)) w).

End RedisClient.

(** The collections of [dbClient.db].  A query is a predicate on
    documents; [findOne] and [updateOne] take the first match in storage
    order, [insertOne] appends. *)
Module Collection.

Definition users_findOne (q : User → bool) : Async (option User) :=
  λ w, (Continue (List.find q (users w)), w).

Definition findOne (q : FileDoc → bool) : Async (option FileDoc) :=
  λ w, (Continue (List.find q (files w)), w).

Fixpoint update_first (q : FileDoc → bool) (u : FileDocument → FileDocument)
    (l : list FileDoc) : list FileDoc :=
  match l with
  | [] => []
  | d :: rest =>
      if q d then {| _id := _id d; document := u d |} :: rest
      else d :: update_first q u rest
  end.

Definition updateOne (q : FileDoc → bool) (u : FileDocument → FileDocument) : Async unit :=
  λ w, (Continue tt, with_files (update_first q u (files w)) w).

(** The driver gives the document a generated [_id]. *)
Definition append (d : FileDoc) : Async unit :=
  λ w, (Continue tt, with_files (files w ++ [d]) w).

Definition insertOne (doc : FileDocument) : Async ObjectID :=
  insertedId ← generate;
  append {| _id := insertedId; document := doc |};;
  mret insertedId.

(** [aggregate([{ $match }, { $skip }, { $limit }]).toArray()]; a
    negative [$skip] is refused by the server, and one that reaches the
    number of matching documents leaves none. *)
Definition aggregate (q : FileDoc → bool) (skip : Z) (limit : nat) : Async (list FileDoc) :=
  if (skip <? 0)%Z then throw "Argument to $skip cannot be negative"
  else λ w,
    let matching := List.filter q (files w) in
    (Continue (if (Z.of_nat (length matching) <=? skip)%Z then []
               else take limit (drop (Z.to_nat skip) matching)), w).

End Collection.

(** [$set: { isPublic: b }]. *)
Definition set_isPublic (b : bool) (d : FileDocument) : FileDocument :=
  {| userId := userId d; name := name d; type := type d; isPublic := JBool b;
     parentId := parentId d; localPath := localPath d |}.

(** [fileDocument.localPath = p]. *)
Definition set_localPath (p : string) (d : FileDocument) : FileDocument :=
  {| userId := userId d; name := name d; type := type d; isPublic := isPublic d;
     parentId := parentId d; localPath := Some p |}.

(** The queries of the controllers. *)
Definition q_id (i : ObjectID) (d : FileDoc) : bool := bool_decide (_id d = i).

Definition q_id_userId (i u : ObjectID) (d : FileDoc) : bool :=
  bool_decide (_id d = i) && bool_decide (userId d = u).

Definition q_parentId_userId (p : ParentRef) (u : ObjectID) (d : FileDoc) : bool :=
  bool_decide (parentId d = p) && bool_decide (userId d = u).

Definition q_email_password (e h : string) (u : User) : bool :=
  String.eqb (email u) e && String.eqb (password u) h.

(** [fs.promises]: the disk is a map from paths to contents;
    [mkdir(..., { recursive: true })] changes no file. *)
Module fsPromises.

Definition mkdir (dir : string) : Async unit := mret tt.

Definition writeFile (path data : string) : Async unit :=
  λ w, (Continue tt, with_disk (<[path := data]> (disk w)) w).

Definition readFile (path : string) : Async (option string) :=
  λ w, (Continue (disk w !! path), w).

End fsPromises.

(** [fileQueue.add(job)]. *)
Definition fileQueue_add (j : Job) : Async unit :=
  λ w, (Continue tt, with_fileQueue (fileQueue w ++ [j]) w).

(** ** Requests *)

Record Body : Type := {
  body_name : JSValue;
  body_type : JSValue;
  body_parentId : JSValue;
  body_isPublic : JSValue;
  body_data : JSValue
}.

Record Request : Type := {
  authorization : option string;
  x_token : option string;
  body : Body;
  params_id : string;
  query_parentId : option string;
  query_page : option string;
  query_size : option string
}.

Definition Unauthorized {A} : Async A := respond 401 (PError "Unauthorized").
Definition NotFound {A} : Async A := respond 404 (PError "Not found").

(** ** controllers/AuthController.js *)
Module AuthController.
Section WithLibraries.

(** [Buffer.from(s, 'base64')] and [sha1], as the libraries give them. *)
Variable base64_decode : string → string.
Variable sha1 : string → string.

Definition getConnect (req : Request) : Async Outcome :=
  let authHeader := authorization req in
  when (negb (truthy_str authHeader)
        || negb (startsWith (default "" authHeader) "Basic ")) Unauthorized;;
  base64Credentials ←
    match split " " (default "" authHeader) !! 1 with
    | Some b => mret b
    | None => throw "The first argument must be of type string"
    end;
  let credentials := toString_ascii (base64_decode base64Credentials) in
  let pieces := split ":" credentials in
  let email := pieces !! 0 in
  let password := pieces !! 1 in
  when (negb (truthy_str email) || negb (truthy_str password)) Unauthorized;;
  let hashedPassword := sha1 (default "" password) in
  user ← Collection.users_findOne (q_email_password (default "" email) hashedPassword);
  match user with
  | None => Unauthorized
  | Some user =>
      token ← uuidv4;
      let tokenKey := "auth_" +:+ token in
      RedisClient.set tokenKey (toHexString (user_id user)) 86400;;
      mret (Responded 200 (PToken token))
  end.

Definition getDisconnect (req : Request) : Async Outcome :=
  let token := x_token req in
  when (negb (truthy_str token)) Unauthorized;;
  let tokenKey := "auth_" +:+ default "" token in
  userId ← RedisClient.get tokenKey;
  when (negb (truthy_str userId)) Unauthorized;;
  RedisClient.del tokenKey;;
  mret (Responded 204 PEmpty).

End WithLibraries.
End AuthController.

(** The content root. *)
Definition folderPath_of (w : World) : string :=
  if truthy_str (FOLDER_PATH w) then default "" (FOLDER_PATH w)
  else "/tmp/files_manager".

(** ** controllers/FilesController.js *)
Module FilesController.
Section WithLibraries.

(** [Buffer.from(s, 'base64')], [path.join] and [mime.lookup], as the
    libraries give them. *)
Variable base64_decode : string → string.
Variable path_join : string → string → string.
Variable mime_lookup : string → option string.

(** The lines every authenticated handler starts with: the [x-token]
    header, the [auth_<token>] key, the user identifier of the cache. *)
Definition tokenUser (req : Request) : Async string :=
  let token := x_token req in
  when (negb (truthy_str token)) Unauthorized;;
  let tokenKey := "auth_" +:+ default "" token in
  userId ← RedisClient.get tokenKey;
  when (negb (truthy_str userId)) Unauthorized;;
  mret (default "" userId).

(** [process.env.FOLDER_PATH || '/tmp/files_manager']. *)
Definition folderPath_env : Async string :=
  λ w, (Continue (folderPath_of w), w).

(** [Buffer.from(data, 'base64')] on a body field. *)
Definition Buffer_from (data : JSValue) : Async string :=
  match data with
  | JStr s => mret (base64_decode s)
  | _ => throw "The first argument must be of type string or an instance of Buffer"
  end.

(** [postUpload], the checks of the name, the type and the data. *)
Definition validate (name_ type_ data : JSValue) : Async unit :=
  when (negb (truthy name_)) (respond 400 (PError "Missing name"));;
  when (negb (truthy type_) || negb (includes ["folder"; "file"; "image"] type_))
    (respond 400 (PError "Missing type"));;
  when (negb (truthy data) && negb (bool_decide (type_ = JStr "folder")))
    (respond 400 (PError "Missing data")).

(** [postUpload], the check that the parent exists and is a folder. *)
Definition checkParent (parentId_ : JSValue) : Async unit :=
  when (strict_ne_zero parentId_)
    (i ← ObjectId parentId_;
     parentFile ← Collection.findOne (q_id i);
     match parentFile : option FileDoc with
     | None => respond 400 (PError "Parent not found")
     | Some parentFile =>
         when (negb (bool_decide (type parentFile = JStr "folder")))
           (respond 400 (PError "Parent is not a folder"))
     end).

(** [postUpload], the document and its insertion: at once for a folder,
    after the blob is written for a file or an image. *)
Definition persist (userId_ : string) (name_ type_ isPublic_ parentId_ data : JSValue)
    : Async Outcome :=
  owner ← ObjectId (JStr userId_);
  parentRef ← (if strict_ne_zero parentId_
               then p ← ObjectId parentId_; mret (Parent p)
               else mret Root);
  let fileDocument :=
    {| userId := owner; name := name_; type := type_; isPublic := isPublic_;
       parentId := parentRef; localPath := None |} in
  if bool_decide (type_ = JStr "folder") then
    insertedId ← Collection.insertOne fileDocument;
    mret (Responded 201 (PCreated insertedId fileDocument))
  else
    folderPath ← folderPath_env;
    uuid ← uuidv4;
    let localPath_ := path_join folderPath uuid in
    fsPromises.mkdir folderPath;;
    fileData ← Buffer_from data;
    fsPromises.writeFile localPath_ fileData;;
    let fileDocument := set_localPath localPath_ fileDocument in
    insertedId ← Collection.insertOne fileDocument;
    when (bool_decide (type_ = JStr "image"))
      (fileQueue_add {| job_userId := userId_;
                        job_fileId := toHexString insertedId |});;
    mret (Responded 201 (PCreated insertedId fileDocument)).

Definition postUpload (req : Request) : Async Outcome :=
  userId_ ← tokenUser req;
  let name_ := body_name (body req) in
  let type_ := body_type (body req) in
  let parentId_ := default_to (JNum 0) (body_parentId (body req)) in
  let isPublic_ := default_to (JBool false) (body_isPublic (body req)) in
  let data := body_data (body req) in
  validate name_ type_ data;;
  checkParent parentId_;;
  persist userId_ name_ type_ isPublic_ parentId_ data.

Definition getShow (req : Request) : Async Outcome :=
  userId_ ← tokenUser req;
  let fileId := params_id req in
  i ← ObjectId (JStr fileId);
  u ← ObjectId (JStr userId_);
  file ← Collection.findOne (q_id_userId i u);
  match file with
  | None => NotFound
  | Some file => mret (Responded 200 (PFile file))
  end.

(** [req.query.parentId || 0]. *)
Definition parentId_or_0 (q : option string) : JSValue :=
  if truthy_str q then JStr (default "" q) else JNum 0.

(** [parseInt(req.query.page, 10) || 0]. *)
Definition page_or_0 (q : option string) : Z :=
  default 0%Z (parseInt q).

Definition getIndex (req : Request) : Async Outcome :=
  userId_ ← tokenUser req;
  let parentId_ := parentId_or_0 (query_parentId req) in
  let page := page_or_0 (query_page req) in
  let pageSize := 20 in
  p ← (if bool_decide (parentId_ = JStr "0") then mret Root
       else i ← ObjectId parentId_; mret (Parent i));
  u ← ObjectId (JStr userId_);
  files ← Collection.aggregate (q_parentId_userId p u)
            (Number_times page (Z.of_nat pageSize)) pageSize;
  mret (Responded 200 (PFiles files)).

(** [putPublish] and [putUnpublish] differ in the flag they set. *)
Definition setPublic (flag : bool) (req : Request) : Async Outcome :=
  userId_ ← tokenUser req;
  let fileId := params_id req in
  i ← ObjectId (JStr fileId);
  u ← ObjectId (JStr userId_);
  file ← Collection.findOne (q_id_userId i u);
  match file with
  | None => NotFound
  | Some _ =>
      i ← ObjectId (JStr fileId);
      u ← ObjectId (JStr userId_);
      Collection.updateOne (q_id_userId i u) (set_isPublic flag);;
      i ← ObjectId (JStr fileId);
      updatedFile ← Collection.findOne (q_id i);
      mret (Responded 200 (from_option PFile PNull updatedFile))
  end.

Definition putPublish : Request → Async Outcome := setPublic true.
Definition putUnpublish : Request → Async Outcome := setPublic false.

(** The path read by [getFile]: [file.localPath], or
    [`${file.localPath}_${size}`] for one of the three sizes. *)
Definition filePath_of (file : FileDocument) (size : option string) : option string :=
  if truthy_str size && existsb (String.eqb (default "" size)) ["100"; "250"; "500"]
  then Some (default "undefined" (localPath file) +:+ "_" +:+ default "" size)
  else localPath file.

Definition mimeType_of (name_ : JSValue) : string :=
  match name_ with
  | JStr s => default "application/octet-stream" (mime_lookup s)
  | _ => "application/octet-stream"
  end.

Definition getFile (req : Request) : Async Outcome :=
  let fileId := params_id req in
  let token := x_token req in
  i ← ObjectId (JStr fileId);
  file ← Collection.findOne (q_id i);
  match file : option FileDoc with
  | None => NotFound
  | Some file =>
      let isPublic_ := isPublic file in
      userId_ ← (if truthy_str token
                 then RedisClient.get ("auth_" +:+ default "" token)
                 else mret None);
      when (negb (truthy isPublic_)
            && (negb (truthy_str userId_)
                || negb (String.eqb (default "" userId_)
                           (toHexString (userId file)))))
        NotFound;;
      when (bool_decide (type file = JStr "folder"))
        (respond 400 (PError "A folder doesn't have content"));;
      match filePath_of file (query_size req) with
      | None => NotFound
      | Some filePath =>
          fileData ← fsPromises.readFile filePath;
          match fileData with
          | None => NotFound
          | Some fileData =>
              mret (Responded 200 (PData (mimeType_of (name file)) fileData))
          end
      end
  end.

End WithLibraries.
End FilesController.

(** ** Notions the properties are stated with *)

(** The user identifier a request's [x-token] stands for: the token is
    present, its [auth_<token>] key is in the cache, and the value is not
    empty. *)
Definition session_user (req : Request) (w : World) : option string :=
  if truthy_str (x_token req) then
    let userId_ := entry_value <$> cache w !! ("auth_" +:+ default "" (x_token req)) in
    if truthy_str userId_ then userId_ else None
  else None.

(** The node stored under an identifier, as [findOne({ _id })] finds it. *)
Definition lookup_file (w : World) (i : ObjectID) : option FileDoc :=
  List.find (q_id i) (files w).

(** Generated identifiers are new: none that is still to be drawn is the
    [_id] of a stored node. *)
Definition fresh_ids (w : World) : Prop :=
  ∀ n d, oid_next w ≤ n → d ∈ files w → _id d ≠ oid_src w n.

(** What the [parentId] of a creation request resolves to, as
    [postUpload] looks it up. *)
Inductive Resolution : Type :=
  | Malformed
  | Missing
  | Resolves (f : FileDoc).

Definition resolve (parentId_ : JSValue) (w : World) : Resolution :=
  match parentId_ with
  | JStr s =>
      match ObjectId_of_string s with
      | Some i => from_option Resolves Missing (lookup_file w i)
      | None => Malformed
      end
  | JBool _ => Malformed
  | JUndefined | JNull | JNum _ =>
      from_option Resolves Missing (lookup_file w (oid_src w (oid_next w)))
  end.

(** The fields of a creation request, with the defaults of [postUpload]. *)
Definition parentId_of (req : Request) : JSValue :=
  default_to (JNum 0) (body_parentId (body req)).

Definition allowed_types : list string := ["folder"; "file"; "image"].

(** A creation request that passes the name, type and data checks. *)
Definition passes_validation (req : Request) : Prop :=
  truthy (body_name (body req)) = true ∧
  includes allowed_types (body_type (body req)) = true ∧
  (truthy (body_data (body req)) = true ∨ body_type (body req) = JStr "folder").

(** The email and password [getConnect] reads from a request, when the
    header is a [Basic] one and both parts are there. *)
Definition credentials (base64_decode : string → string) (req : Request)
    : option (string * string) :=
  match authorization req with
  | Some authHeader =>
      if truthy_str (Some authHeader) && startsWith authHeader "Basic " then
        let pieces :=
          split ":" (toString_ascii
                       (base64_decode (default "" (split " " authHeader !! 1)))) in
        match pieces !! 0, pieces !! 1 with
        | Some e, Some p =>
            if truthy_str (Some e) && truthy_str (Some p) then Some (e, p) else None
        | _, _ => None
        end
      else None
  | None => None
  end.

(** A session entry as [getConnect] writes it. *)
Definition session_entry (u : User) : CacheEntry :=
  {| entry_value := toHexString (user_id u); entry_ttl := Some 86400%Z |}.

(** The session store after a successful [getConnect]. *)
Definition opened (token : string) (u : User) (w : World) : World :=
  with_cache (<["auth_" +:+ token := session_entry u]> (cache w))
    (with_uuid_next (S (uuid_next w)) w).

(** Whether the request carries the token of the owner of a node: the
    test [userId && userId === file.userId.toString()] of [getFile]. *)
Definition requester_is_owner (req : Request) (w : World) (f : FileDocument) : bool :=
  match session_user req w with
  | Some uid => String.eqb uid (toHexString (userId f))
  | None => false
  end.

(** A stored node after [$set: { isPublic: flag }]. *)
Definition republished (flag : bool) (f : FileDoc) : FileDoc :=
  {| _id := _id f; document := set_isPublic flag f |}.

(** The bytes [getFile] reads for a node and a [size] parameter, if the
    path is on the disk. *)
Definition filePath_of_read (w : World) (f : FileDocument) (size : option string)
    : option string :=
  p ← FilesController.filePath_of f size; disk w !! p.

(** The world after [ObjectId(v)] was evaluated: an identifier was drawn
    unless [v] is a string or a boolean. *)
Definition drawn (v : JSValue) (w : World) : World :=
  match v with
  | JStr _ | JBool _ => w
  | JUndefined | JNull | JNum _ => with_oid_next (S (oid_next w)) w
  end.

(** Every node of [l] is still in [l'], at the same place, with the same
    identifier, type and [localPath]. *)
Definition keeps_localPath (l l' : list FileDoc) : Prop :=
  ∀ k d, l !! k = Some d →
    ∃ d', l' !! k = Some d' ∧ _id d' = _id d ∧ type d' = type d ∧
          localPath d' = localPath d.

(** A computation that keeps the stored nodes in that sense. *)
Definition stable {A} (m : Async A) : Prop :=
  ∀ w, keeps_localPath (files w) (files (m w).2).

(** The page [getIndex] asks the collection for: the nodes of a parent
    and an owner in storage order, [page * 20] skipped, 20 kept. *)
Definition page_of (p : ParentRef) (u : ObjectID) (page : Z) (w : World) : list FileDoc :=
  take 20 (drop (Z.to_nat (Number_times page 20))
             (List.filter (q_parentId_userId p u) (files w))).

(** A response that reports an error, or no response at all. *)
Definition is_error (o : Outcome) : bool :=
  match o with
  | Responded status _ => 400 <=? status
  | Rejected _ => true
  end.

(** The calls a client can make, and a server answering a sequence of
    them. *)
Inductive Call : Type :=
  | GET_connect (req : Request)
  | GET_disconnect (req : Request)
  | POST_files (req : Request)
  | GET_files_id (req : Request)
  | GET_files (req : Request)
  | PUT_publish (req : Request)
  | PUT_unpublish (req : Request)
  | GET_files_data (req : Request).

Section Server.

Variable base64_decode : string → string.
Variable sha1 : string → string.
Variable path_join : string → string → string.
Variable mime_lookup : string → option string.

Definition handler (c : Call) : Async Outcome :=
  match c with
  | GET_connect req => AuthController.getConnect base64_decode sha1 req
  | GET_disconnect req => AuthController.getDisconnect req
  | POST_files req => FilesController.postUpload base64_decode path_join req
  | GET_files_id req => FilesController.getShow req
  | GET_files req => FilesController.getIndex req
  | PUT_publish req => FilesController.putPublish req
  | PUT_unpublish req => FilesController.putUnpublish req
  | GET_files_data req => FilesController.getFile mime_lookup req
  end.

Fixpoint serve (cs : list Call) (w : World) : World :=
  match cs with
  | [] => w
  | c :: rest => serve rest (run (handler c) w).2
  end.

End Server.

(** ** A concrete deployment

    Two users, three nodes, two open sessions and one blob, used to run
    the handlers on concrete requests. *)
Module Scenario.

(** A decoder of the standard base64 alphabet; it stops at the first
    character outside it. *)
Definition sextet (c : ascii) : option nat :=
  let n := nat_of_ascii c in
  if (65 <=? n) && (n <=? 90) then Some (n - 65)
  else if (97 <=? n) && (n <=? 122) then Some (n - 71)
  else if (48 <=? n) && (n <=? 57) then Some (n + 4)
  else if n =? 43 then Some 62
  else if n =? 47 then Some 63
  else None.

Fixpoint sextets (s : string) : list nat :=
  match s with
  | EmptyString => []
  | String c rest =>
      match sextet c with
      | Some v => v :: sextets rest
      | None => []
      end
  end.

Fixpoint octets (l : list nat) : string :=
  match l with
  | a :: b :: c :: d :: rest =>
      String (ascii_of_nat (a * 4 + b / 16))
        (String (ascii_of_nat ((b mod 16) * 16 + c / 4))
           (String (ascii_of_nat ((c mod 4) * 64 + d)) (octets rest)))
  | [a; b; c] =>
      String (ascii_of_nat (a * 4 + b / 16))
        (String (ascii_of_nat ((b mod 16) * 16 + c / 4)) EmptyString)
  | [a; b] => String (ascii_of_nat (a * 4 + b / 16)) EmptyString
  | _ => EmptyString
  end.

Definition base64_decode (s : string) : string := octets (sextets s).

(** A stand-in for the digest: any function will do for the handlers. *)
Definition digest (s : string) : string := "digest(" +:+ s +:+ ")".

Definition path_join (dir file : string) : string := dir +:+ "/" +:+ file.

Definition mime_lookup (file : string) : option string :=
  if String.eqb file "a.txt" then Some "text/plain" else None.

Fixpoint hex_fixed (k n : nat) : string :=
  match k with
  | 0 => EmptyString
  | S k' => hex_fixed k' (n / 16) +:+ String (hex_digit (n mod 16)) EmptyString
  end.

Definition alice_id : ObjectID := MkObjectID "5f1e7d35c7ba06511e683b21" I.
Definition bob_id : ObjectID := MkObjectID "5f1e7d35c7ba06511e683b22" I.
Definition documents_id : ObjectID := MkObjectID "5f1e8896c7ba06511e683b25" I.
Definition a_txt_id : ObjectID := MkObjectID "5f1e8896c7ba06511e683b26" I.
Definition shared_id : ObjectID := MkObjectID "5f1e8896c7ba06511e683b27" I.
Definition zero_id : ObjectID := MkObjectID "000000000000000000000000" I.

Definition generated (n : nat) : ObjectID :=
  default zero_id (mk_oid ("0000000000000000" +:+ hex_fixed 8 n)).

Definition uuid (n : nat) : string := "2cd2f2b1-9c5d-4a0e-8b4e-" +:+ hex_fixed 12 n.

Definition alice : User :=
  {| user_id := alice_id; email := "alice@example.com"; password := digest "secret" |}.
Definition bob : User :=
  {| user_id := bob_id; email := "bob@example.com"; password := digest "hunter2" |}.

(** Alice's private folder, her private file in it, and Bob's folder. *)
Definition documents : FileDoc :=
  {| _id := documents_id;
     document := {| userId := alice_id; name := JStr "Documents"; type := JStr "folder";
                    isPublic := JBool false; parentId := Root; localPath := None |} |}.
Definition a_txt : FileDoc :=
  {| _id := a_txt_id;
     document := {| userId := alice_id; name := JStr "a.txt"; type := JStr "file";
                    isPublic := JBool false; parentId := Parent documents_id;
                    localPath := Some "/tmp/files_manager/0b9d5a0c" |} |}.
Definition shared : FileDoc :=
  {| _id := shared_id;
     document := {| userId := bob_id; name := JStr "Shared"; type := JStr "folder";
                    isPublic := JBool false; parentId := Root; localPath := None |} |}.

Definition session (u : ObjectID) : CacheEntry :=
  {| entry_value := toHexString u; entry_ttl := Some 86400%Z |}.

Definition world : World :=
  {| users := [alice; bob];
     files := [documents; a_txt; shared];
     cache := <["auth_alice-token" := session alice_id]>
                (<["auth_bob-token" := session bob_id]> ∅);
     disk := <["/tmp/files_manager/0b9d5a0c" := "hi"]> ∅;
     fileQueue := [];
     FOLDER_PATH := None;
     oid_src := generated;
     oid_next := 0;
     uuid_src := uuid;
     uuid_next := 0 |}.

Definition no_body : Body :=
  {| body_name := JUndefined; body_type := JUndefined; body_parentId := JUndefined;
     body_isPublic := JUndefined; body_data := JUndefined |}.

(** A request with the given [Authorization] and [X-Token] headers, body
    and [:id] parameter, and no query string. *)
Definition request (auth token : option string) (b : Body) (id : string) : Request :=
  {| authorization := auth; x_token := token; body := b; params_id := id;
     query_parentId := None; query_page := None; query_size := None |}.

(** A listing request: [GET /files] with the given token and query. *)
Definition listing (token parent page : option string) : Request :=
  {| authorization := None; x_token := token; body := no_body; params_id := "";
     query_parentId := parent; query_page := page; query_size := None |}.

(** A creation request: [POST /files] with the given token and body. *)
Definition creation (token : string) (name_ type_ parentId_ data : JSValue) : Request :=
  request None (Some token)
    {| body_name := name_; body_type := type_; body_parentId := parentId_;
       body_isPublic := JUndefined; body_data := data |} "".

End Scenario.

(** ** utils/db.js and controllers/AppController.js *)

(** The counts of [dbClient]: [countDocuments()] on each collection. *)
Module DBClient.

Definition nbUsers : Async nat := λ w, (Continue (length (users w)), w).

Definition nbFiles : Async nat := λ w, (Continue (length (files w)), w).

End DBClient.

Module AppController.

(** The body of the [/stats] response. *)
Record Stats : Type := {
  stats_users : nat;
  stats_files : nat
}.

(** [getStats]: the status and the body sent. *)
Definition getStats : Async (nat * Stats) :=
  usersNum ← DBClient.nbUsers;
  filesNum ← DBClient.nbFiles;
  mret (200, {| stats_users := usersNum; stats_files := filesNum |}).

End AppController.

(** ** Notions for the properties of whole calls *)

(** The request of a call. *)
Definition request_of (c : Call) : Request :=
  match c with
  | GET_connect req | GET_disconnect req | POST_files req | GET_files_id req
  | GET_files req | PUT_publish req | PUT_unpublish req | GET_files_data req => req
  end.

(** The calls whose handler starts by resolving the [x-token] header. *)
Definition needs_token (c : Call) : bool :=
  match c with
  | GET_connect _ | GET_files_data _ => false
  | _ => true
  end.

(** The statuses a handler has a [res.status(...)] for. *)
Definition statuses_of (c : Call) : list nat :=
  match c with
  | GET_connect _ => [200; 401]
  | GET_disconnect _ => [204; 401]
  | POST_files _ => [201; 400; 401]
  | GET_files_id _ => [200; 401; 404]
  | GET_files _ => [200; 401]
  | PUT_publish _ | PUT_unpublish _ => [200; 401; 404]
  | GET_files_data _ => [200; 400; 404]
  end.

(** An outcome is within a list of statuses when it is a response with
    one of them, or no response at all. *)
Definition status_within (l : list nat) (o : Outcome) : bool :=
  match o with
  | Responded status _ => existsb (Nat.eqb status) l
  | Rejected _ => true
  end.

(** Every way a computation returns early is within [l]. *)
Definition exits_within {A} (l : list nat) (m : Async A) : Prop :=
  ∀ w, match (m w).1 with
       | Return o => status_within l o = true
       | Continue _ => True
       end.

(** Every outcome of a handler is within [l]. *)
Definition answers_within (l : list nat) (h : Async Outcome) : Prop :=
  ∀ w, status_within l (run h w).1 = true.

(** A computation that takes every world to one related to it. *)
Definition preserves {A} (R : World → World → Prop) (m : Async A) : Prop :=
  ∀ w, R w (m w).2.

(** Two stored nodes that differ at most in [isPublic]. *)
Definition same_but_isPublic (d d' : FileDoc) : Prop :=
  _id d' = _id d ∧ userId d' = userId d ∧ name d' = name d ∧ type d' = type d ∧
  parentId d' = parentId d ∧ localPath d' = localPath d.

(** From [w] to [w'] the users are the same and every stored node is
    still there, at the same place, changed at most in [isPublic]. *)
Definition only_isPublic_changes (w w' : World) : Prop :=
  users w' = users w ∧
  ∀ k d, files w !! k = Some d →
    ∃ d', files w' !! k = Some d' ∧ same_but_isPublic d d'.

(** From [w] to [w'] the sessions are the same. *)
Definition same_sessions (w w' : World) : Prop := cache w' = cache w.

(** From [w] to [w'] the blobs and the thumbnail queue are the same. *)
Definition same_blobs (w w' : World) : Prop :=
  disk w' = disk w ∧ fileQueue w' = fileQueue w.

(** From [w] to [w'] nothing has changed. *)
Definition unchanged (w w' : World) : Prop := w' = w.

(** From [w] to [w'] as many nodes are stored. *)
Definition same_count (w w' : World) : Prop :=
  length (files w') = length (files w).

(** A 201 of [postUpload]. *)
Definition is_created (o : Outcome) : bool :=
  match o with
  | Responded status (PCreated _ _) => status =? 201
  | _ => false
  end.

(** The job [postUpload] queues for an image. *)
Definition thumbnail_job (uid : string) (id : ObjectID) : Job :=
  {| job_userId := uid; job_fileId := toHexString id |}.

(** A data request: [GET /files/:id/data] with a token and a size. *)
Definition data_request (token : option string) (id : string) (size : option string)
    : Request :=
  {| authorization := None; x_token := token; body := Scenario.no_body; params_id := id;
     query_parentId := None; query_page := None; query_size := size |}.

(** The three sizes [getFile] knows. *)
Definition known_size (size : option string) : bool :=
  truthy_str size && existsb (String.eqb (default "" size)) ["100"; "250"; "500"].

(** Alice uploads the file [b.txt], with content "hi", at the root of the
    concrete deployment; the document it is stored as. *)
Definition upload_b : Request :=
  Scenario.creation "alice-token" (JStr "b.txt") (JStr "file") JUndefined (JStr "aGk=").

Definition uploaded_b : FileDocument :=
  {| userId := Scenario.alice_id; name := JStr "b.txt"; type := JStr "file";
     isPublic := JBool false; parentId := Root;
     localPath := Some "/tmp/files_manager/2cd2f2b1-9c5d-4a0e-8b4e-000000000000" |}.

(** * Properties *)

(** ** The monad and the clients *)

Lemma bind_continue {A B} (m : Async A) (k : A → Async B) w a w' :
  m w = (Continue a, w') → (m ≫= k) w = k a w'.
Proof. intros H. unfold mbind, Async_bind. by rewrite H. Qed.

Lemma bind_return {A B} (m : Async A) (k : A → Async B) w o w' :
  m w = (Return o, w') → (m ≫= k) w = (Return o, w').
Proof. intros H. unfold mbind, Async_bind. by rewrite H. Qed.

(** Numbers: the safe integers are exact, and rounding keeps the sign. *)
Lemma binary64_exact z : (Z.abs z ≤ MAX_SAFE_INTEGER)%Z → binary64 z = z.
Proof.
  unfold MAX_SAFE_INTEGER, binary64. intros H.
  assert (He : Z.max 0 (Z.log2 (Z.abs z) - 52) = 0%Z).
  { destruct (decide (Z.abs z = 0%Z)) as [-> | Hne]; [done |].
    assert (Z.log2 (Z.abs z) < 53)%Z by (apply Z.log2_lt_pow2; lia). lia. }
  rewrite He. rewrite Z.shiftr_0_r, !Z.shiftl_0_r.
  replace (Z.abs z - Z.abs z)%Z with 0%Z by lia. simpl (_ || _).
  rewrite Z.min_l by (transitivity (2 ^ 53)%Z; [lia | by apply Z.pow_le_mono_r]).
  lia.
Qed.

Lemma binary64_sgn z : Z.sgn (binary64 z) = Z.sgn z.
Proof.
  unfold binary64.
  set (m := Z.abs z). set (e := Z.max 0 (Z.log2 m - 52)).
  set (q := Z.shiftr m e). set (up := _ || _).
  destruct (decide (z = 0%Z)) as [-> | Hz]; [done |].
  assert (Hm : (0 < m)%Z) by (subst m; lia).
  assert (He : (0 ≤ e)%Z) by (subst e; lia).
  assert (Hq : (0 < q)%Z).
  { subst q. rewrite Z.shiftr_div_pow2 by done.
    apply Z.div_str_pos. split; [by apply Z.pow_pos_nonneg |].
    destruct (Z.max_spec 0 (Z.log2 m - 52)) as [[_ E] | [_ E]]; fold e in E; rewrite E.
    - transitivity (2 ^ Z.log2 m)%Z; [apply Z.pow_le_mono_r; lia | by apply Z.log2_spec].
    - simpl. lia. }
  assert (0 < Z.shiftl (if up then q + 1 else q) e)%Z.
  { rewrite Z.shiftl_mul_pow2 by done.
    apply Z.mul_pos_pos; [destruct up; lia | by apply Z.pow_pos_nonneg]. }
  assert (0 < Z.min (Z.shiftl (if up then q + 1 else q) e) (2 ^ 1024))%Z
    by (by apply Z.min_glb_lt).
  rewrite Z.sgn_mul, Z.sgn_sgn. rewrite (Z.sgn_pos (Z.min _ _)) by done. lia.
Qed.

Lemma Number_times_nonneg a b : (0 ≤ a)%Z → (0 ≤ b)%Z → (0 ≤ Number_times a b)%Z.
Proof.
  intros Ha Hb. unfold Number_times. apply Z.sgn_nonneg. rewrite binary64_sgn.
  apply Z.sgn_nonneg. by apply Z.mul_nonneg_nonneg.
Qed.

Lemma Number_times_neg a b : (a < 0)%Z → (0 < b)%Z → (Number_times a b < 0)%Z.
Proof.
  intros Ha Hb. unfold Number_times. apply Z.sgn_neg_iff. rewrite binary64_sgn.
  apply Z.sgn_neg_iff. by apply Z.mul_neg_pos.
Qed.

Lemma Number_times_exact a b :
  (Z.abs (a * b) ≤ MAX_SAFE_INTEGER)%Z → Number_times a b = (a * b)%Z.
Proof. apply binary64_exact. Qed.

Lemma skip_beyond {A} (l : list A) skip n :
  (if (Z.of_nat (length l) <=? skip)%Z then [] else take n (drop (Z.to_nat skip) l))
  = take n (drop (Z.to_nat skip) l).
Proof.
  destruct (Z.leb_spec (Z.of_nat (length l)) skip); [| done].
  rewrite drop_ge by lia. by rewrite take_nil.
Qed.

Lemma tokenUser_spec req w :
  FilesController.tokenUser req w =
    match session_user req w with
    | Some uid => (Continue uid, w)
    | None => (Return (Responded 401 (PError "Unauthorized")), w)
    end.
Proof.
  unfold FilesController.tokenUser, session_user.
  destruct (truthy_str (x_token req)) eqn:Ht; simpl; [| done].
  unfold mbind, Async_bind, mret, Async_ret, RedisClient.get. simpl.
  destruct (truthy_str (entry_value <$> cache w !! _)) eqn:Hu; simpl; [| done].
  destruct (entry_value <$> cache w !! _) eqn:E; simpl; [done | discriminate].
Qed.

Lemma is_lower_hex_is_hex c : is_lower_hex c = true → is_hex c = true.
Proof. unfold is_hex. by intros ->. Qed.

Lemma lower_hex_fixed c : is_lower_hex c = true → lower_hex c = c.
Proof.
  unfold is_lower_hex, lower_hex. intros H.
  destruct ((65 <=? nat_of_ascii c) && (nat_of_ascii c <=? 70)) eqn:E; [| done].
  apply andb_true_iff in E as [E1 E2].
  apply Nat.leb_le in E1, E2.
  apply orb_true_iff in H as [H | H]; apply andb_true_iff in H as [H1 H2];
    apply Nat.leb_le in H1, H2; lia.
Qed.

Lemma string_forall_hex s :
  string_forall is_lower_hex s = true →
  string_forall is_hex s = true ∧ string_map lower_hex s = s.
Proof.
  induction s as [| c s IH]; simpl; [done |].
  intros [Hc Hs]%andb_true_iff. destruct (IH Hs) as [-> ->].
  by rewrite is_lower_hex_is_hex, lower_hex_fixed.
Qed.

Lemma mk_oid_toHexString o : mk_oid (toHexString o) = Some o.
Proof.
  unfold mk_oid. destruct o as [h p]; simpl.
  destruct (decide (Is_true (oid_hexb h))) as [q | n]; [| done].
  f_equal. f_equal. apply proof_irrel.
Qed.

(** The constructor reads back what [toString] printed. *)
Lemma ObjectId_of_toHexString o : ObjectId_of_string (toHexString o) = Some o.
Proof.
  unfold ObjectId_of_string.
  pose proof (oid_wf o) as H. unfold oid_hexb in H.
  apply Is_true_true in H. apply andb_true_iff in H as [Hl Hf].
  apply Nat.eqb_eq in Hl.
  destruct (string_forall_hex _ Hf) as [Hh Hm].
  rewrite Hl, Hh, Hm. simpl. apply mk_oid_toHexString.
Qed.

Lemma ObjectId_string_ok s o w :
  ObjectId_of_string s = Some o → ObjectId (JStr s) w = (Continue o, w).
Proof. intros H. unfold ObjectId. by rewrite H. Qed.

Lemma find_none_intro {A} (q : A → bool) (l : list A) :
  (∀ x, x ∈ l → q x = false) → List.find q l = None.
Proof.
  induction l as [| a l IH]; simpl; [done |]. intros H.
  rewrite (H a) by constructor. apply IH. intros x Hx. apply H. by constructor.
Qed.

Lemma find_some_elem {A} (q : A → bool) (l : list A) x :
  List.find q l = Some x → x ∈ l ∧ q x = true.
Proof. intros H. apply find_some in H as [H1 H2]. by rewrite list_elem_of_In. Qed.

Lemma includes_truthy l v : includes l v = true → (∀ s, s ∈ l → s ≠ "") → truthy v = true.
Proof.
  destruct v as [| | b | n | s]; simpl; try discriminate.
  intros H Hl. apply existsb_exists in H as (x & Hx & E).
  apply String.eqb_eq in E. subst x.
  destruct (String.eqb_spec s ""); [| done].
  subst s. exfalso. apply (Hl ""); [by apply list_elem_of_In | done].
Qed.

Lemma allowed_types_truthy v : includes allowed_types v = true → truthy v = true.
Proof.
  intros H. apply (includes_truthy _ _ H). intros s Hs.
  unfold allowed_types in Hs.
  repeat (apply elem_of_cons in Hs as [-> | Hs]; [done |]).
  by apply elem_of_nil in Hs.
Qed.

(** ** Creation validation *)

Section Validation.

Variable base64_decode : string → string.
Variable path_join : string → string → string.

(** C7.  For an authenticated creation request the checks come in this
    order: no name answers 400 "Missing name"; a name but no type, or a
    type outside folder, file and image, answers 400 "Missing type"; a
    name and an allowed type other than folder but no data answers 400
    "Missing data".  So type "file" without data and type "bogus" each
    answer 400, and in every one of these cases the stores are what they
    were: no node is persisted. *)
Theorem postUpload_validation req w uid :
  session_user req w = Some uid →
  let name_ := body_name (body req) in
  let type_ := body_type (body req) in
  let data := body_data (body req) in
  let out := run (FilesController.postUpload base64_decode path_join req) w in
  (truthy name_ = false → out = (Responded 400 (PError "Missing name"), w)) ∧
  (truthy name_ = true →
   truthy type_ = false ∨ includes allowed_types type_ = false →
   out = (Responded 400 (PError "Missing type"), w)) ∧
  (truthy name_ = true → includes allowed_types type_ = true →
   truthy data = false → type_ ≠ JStr "folder" →
   out = (Responded 400 (PError "Missing data"), w)) ∧
  (type_ = JStr "file" → truthy data = false →
   ∃ e, out = (Responded 400 (PError e), w)) ∧
  (type_ = JStr "bogus" → ∃ e, out = (Responded 400 (PError e), w)).
Proof.
  intros Hs name_ type_ data out.
  assert (Hrun : ∀ o, FilesController.validate name_ type_ data w = (Return o, w) →
                      out = (o, w)).
  { intros o Hv. subst out. unfold run, FilesController.postUpload.
    rewrite (bind_continue _ _ w uid w) by (by rewrite tokenUser_spec, Hs).
    fold name_ type_ data. by rewrite (bind_return _ _ _ _ _ Hv). }
  assert (Hname : truthy name_ = false →
                  out = (Responded 400 (PError "Missing name"), w)).
  { intros Hn. apply Hrun. unfold FilesController.validate. by rewrite Hn. }
  assert (Htype : truthy name_ = true →
                  truthy type_ = false ∨ includes allowed_types type_ = false →
                  out = (Responded 400 (PError "Missing type"), w)).
  { intros Hn Ht. apply Hrun. unfold FilesController.validate.
    fold allowed_types. rewrite Hn.
    assert (negb (truthy type_) || negb (includes allowed_types type_) = true) as ->
      by (destruct Ht as [-> | ->]; simpl; [done | apply orb_true_r]).
    done. }
  assert (Hdata : truthy name_ = true → includes allowed_types type_ = true →
                  truthy data = false → type_ ≠ JStr "folder" →
                  out = (Responded 400 (PError "Missing data"), w)).
  { intros Hn Ht Hd Hf. apply Hrun. unfold FilesController.validate.
    fold allowed_types.
    rewrite Hn, Ht, (allowed_types_truthy _ Ht), Hd.
    rewrite (bool_decide_eq_false_2 _ Hf). done. }
  repeat split; try assumption.
  - intros Ht Hd. destruct (truthy name_) eqn:Hn; [| eauto].
    eexists. apply Hdata; rewrite ?Ht; done.
  - intros Ht. destruct (truthy name_) eqn:Hn; [| eauto].
    eexists. apply Htype; [done |]. right. by rewrite Ht.
Qed.

End Validation.

(** ** Sessions *)

Lemma split_nonempty sep s : ∃ x xs, split sep s = x :: xs.
Proof.
  induction s as [| c s (x & xs & IH)]; simpl; [by eauto |].
  destruct (Ascii.eqb c sep); [by eauto |]. rewrite IH. eauto.
Qed.

Lemma prefix_app p s : String.prefix p s = true → ∃ r, s = p +:+ r.
Proof.
  revert s. induction p as [| a p IH]; intros s.
  - destruct s; simpl; eauto.
  - destruct s as [| b s]; simpl; [discriminate |].
    destruct (ascii_dec a b) as [-> |]; [| discriminate].
    intros (r & ->)%IH. eauto.
Qed.

Lemma split_Basic h :
  startsWith h "Basic " = true → ∃ b, split " " h !! 1 = Some b.
Proof.
  intros (r & ->)%prefix_app. cbv [String.append]. simpl.
  destruct (split_nonempty " " r) as (x & xs & ->). eauto.
Qed.

Section Sessions.

Variable base64_decode : string → string.
Variable sha1 : string → string.

Lemma getConnect_run req w :
  run (AuthController.getConnect base64_decode sha1 req) w =
    match credentials base64_decode req with
    | None => (Responded 401 (PError "Unauthorized"), w)
    | Some (e, p) =>
        match List.find (q_email_password e (sha1 p)) (users w) with
        | None => (Responded 401 (PError "Unauthorized"), w)
        | Some u =>
            (Responded 200 (PToken (uuid_src w (uuid_next w))),
             opened (uuid_src w (uuid_next w)) u w)
        end
    end.
Proof.
  unfold credentials, run, AuthController.getConnect, mbind, Async_bind.
  destruct (authorization req) as [h |]; simpl; [| done].
  destruct (negb (h =? "")%string) eqn:Hh; simpl; [| done].
  destruct (startsWith h "Basic ") eqn:Hb; simpl; [| done].
  destruct (split_Basic _ Hb) as (b & ->). simpl.
  destruct (split ":" (toString_ascii (base64_decode b)) !! 0) as [e |]; simpl; [| done].
  destruct (negb (e =? "")%string); simpl; [| by destruct (_ !! 1)].
  destruct (split ":" (toString_ascii (base64_decode b)) !! 1) as [p |]; simpl; [| done].
  destruct (negb (p =? "")%string); simpl; [| done].
  unfold Collection.users_findOne.
  destruct (List.find _ (users w)) as [u |]; simpl; [| done].
  rewrite alter_insert_eq. done.
Qed.


(** C2, as the code has it.  A revoke whose token stands for no user
    (no header, no [auth_<token>] key in the cache, or an empty value)
    answers 401 Unauthorized and changes nothing; a revoke whose token
    stands for a user answers 204 and removes that key, and no other,
    from the cache.  Either way the token stands for no user afterwards,
    so the second of two consecutive revokes of the same request always
    answers 401 and changes nothing.  Only the cache-level delete is
    idempotent: deleting twice equals deleting once. *)
Theorem getDisconnect_second_unauthorized req w :
  let key := "auth_" +:+ default "" (x_token req) in
  let first := run (AuthController.getDisconnect req) w in
  let second := run (AuthController.getDisconnect req) first.2 in
  (session_user req w = None → first = (Responded 401 (PError "Unauthorized"), w)) ∧
  (∀ uid, session_user req w = Some uid →
     first = (Responded 204 PEmpty, with_cache (delete key (cache w)) w) ∧
     cache first.2 !! key = None ∧
     (∀ key', key' ≠ key → cache first.2 !! key' = cache w !! key') ∧
     users first.2 = users w ∧ files first.2 = files w ∧ disk first.2 = disk w) ∧
  (first.1 = Responded 204 PEmpty ∨ first.1 = Responded 401 (PError "Unauthorized")) ∧
  session_user req first.2 = None ∧
  second = (Responded 401 (PError "Unauthorized"), first.2) ∧
  (∀ key w0, RedisClient.del key (RedisClient.del key w0).2 = RedisClient.del key w0).
Proof.
  assert (Hrun : ∀ w0, run (AuthController.getDisconnect req) w0 =
            match session_user req w0 with
            | Some _ => (Responded 204 PEmpty,
                         with_cache (delete ("auth_" +:+ default "" (x_token req)) (cache w0)) w0)
            | None => (Responded 401 (PError "Unauthorized"), w0)
            end).
  { intros w0. unfold run, AuthController.getDisconnect, session_user, mbind, Async_bind.
    destruct (truthy_str (x_token req)); simpl; [| done].
    unfold RedisClient.get.
    destruct (truthy_str (entry_value <$> cache w0 !! _)) eqn:E; simpl; [| done].
    destruct (entry_value <$> cache w0 !! _); [done | discriminate]. }
  assert (Hgone : ∀ w0, session_user req
            (with_cache (delete ("auth_" +:+ default "" (x_token req)) (cache w0)) w0) = None).
  { intros w0. unfold session_user. destruct (truthy_str (x_token req)); [| done].
    simpl. by rewrite lookup_delete_eq. }
  assert (Hdel : ∀ key w0,
            RedisClient.del key (RedisClient.del key w0).2 = RedisClient.del key w0).
  { intros key w0. unfold RedisClient.del, with_cache; simpl.
    by rewrite delete_delete_eq. }
  intros key first second. subst second first key. rewrite Hrun.
  destruct (session_user req w) eqn:Hs; simpl.
  - split; [done |]. split.
    { intros uid _. split; [done |]. split; [by rewrite lookup_delete_eq |].
      split; [| done]. intros key' Hne. by rewrite lookup_delete_ne. }
    split; [by left |]. split; [apply Hgone |].
    split; [by rewrite Hrun, Hgone | exact Hdel].
  - split; [done |]. split; [done |]. split; [by right |]. split; [done |].
    split; [by rewrite Hrun, Hs | exact Hdel].
Qed.

End Sessions.

(** ** Reading nodes *)

Lemma q_id_true i d : q_id i d = true ↔ _id d = i.
Proof. unfold q_id. apply bool_decide_eq_true. Qed.

Lemma q_id_userId_true i u d : q_id_userId i u d = true ↔ _id d = i ∧ userId d = u.
Proof.
  unfold q_id_userId. rewrite andb_true_iff, !bool_decide_eq_true. done.
Qed.

Lemma lookup_file_Some w i f : lookup_file w i = Some f → f ∈ files w ∧ _id f = i.
Proof. intros [H1 H2]%find_some_elem. by apply q_id_true in H2. Qed.

Lemma getShow_run req w uid u i :
  session_user req w = Some uid →
  ObjectId_of_string uid = Some u →
  ObjectId_of_string (params_id req) = Some i →
  run (FilesController.getShow req) w =
    match List.find (q_id_userId i u) (files w) with
    | Some f => (Responded 200 (PFile f), w)
    | None => (Responded 404 (PError "Not found"), w)
    end.
Proof.
  intros Hs Hu Hi. unfold run, FilesController.getShow.
  rewrite (bind_continue _ _ w uid w) by (by rewrite tokenUser_spec, Hs).
  rewrite (bind_continue _ _ w i w) by (by apply ObjectId_string_ok).
  rewrite (bind_continue _ _ w u w) by (by apply ObjectId_string_ok).
  unfold mbind, Async_bind, Collection.findOne.
  by destruct (List.find _ (files w)).
Qed.

Lemma ObjectId_string_throws s w :
  ObjectId_of_string s = None → ∃ e, ObjectId (JStr s) w = (Return (Rejected e), w).
Proof. intros H. unfold ObjectId. rewrite H. by eexists. Qed.

(** C6, where the code departs from it.  For an authenticated requester
    and a node identifier the [ObjectId] constructor accepts, [getShow]
    answers the same 404 "Not found", and leaves the same stores, whether
    no node has the identifier or the nodes that have it belong to
    someone else; and a 200 answer carries a stored node with that
    identifier whose owner is the requester.  But an identifier the
    constructor rejects, which is the identifier of no node, is not
    answered 404: the constructor throws before the lookup, no response
    is sent, and that case is told apart from a node of someone else. *)
Theorem getShow_no_existence_leak req w uid :
  session_user req w = Some uid →
  let out := run (FilesController.getShow req) w in
  (ObjectId_of_string (params_id req) = None ∨ ObjectId_of_string uid = None →
     ∃ e, out = (Rejected e, w)) ∧
  (∀ u i, ObjectId_of_string uid = Some u →
     ObjectId_of_string (params_id req) = Some i →
     ((∀ d, d ∈ files w → _id d ≠ i) →
        out = (Responded 404 (PError "Not found"), w)) ∧
     ((∃ d, d ∈ files w ∧ _id d = i) →
      (∀ d, d ∈ files w → _id d = i → userId d ≠ u) →
        out = (Responded 404 (PError "Not found"), w)) ∧
     (out.1 = Responded 404 (PError "Not found") ∨ ∃ d, out.1 = Responded 200 (PFile d))) ∧
  (∀ d, out.1 = Responded 200 (PFile d) →
     d ∈ files w ∧ ObjectId_of_string (params_id req) = Some (_id d) ∧
     ObjectId_of_string uid = Some (userId d)).
Proof.
  intros Hs out.
  assert (Hbad : ObjectId_of_string (params_id req) = None ∨ ObjectId_of_string uid = None →
                 ∃ e, out = (Rejected e, w)).
  { subst out. unfold run, FilesController.getShow.
    rewrite (bind_continue _ _ w uid w) by (by rewrite tokenUser_spec, Hs).
    destruct (ObjectId_of_string (params_id req)) as [i |] eqn:Hi.
    - intros [? | Hu]; [done |].
      rewrite (bind_continue _ _ w i w) by (by apply ObjectId_string_ok).
      destruct (ObjectId_string_throws uid w Hu) as [e He].
      exists e. by rewrite (bind_return _ _ _ _ _ He).
    - intros _. destruct (ObjectId_string_throws (params_id req) w Hi) as [e He].
      exists e. by rewrite (bind_return _ _ _ _ _ He). }
  split; [exact Hbad |].
  destruct (ObjectId_of_string uid) as [u |] eqn:Hu;
    [| destruct Hbad as [e ->]; [by right |]; by split].
  destruct (ObjectId_of_string (params_id req)) as [i |] eqn:Hi;
    [| destruct Hbad as [e ->]; [by left |]; by split].
  subst out. rewrite (getShow_run _ _ _ _ _ Hs Hu Hi).
  assert (Hforeign : (∀ d, d ∈ files w → _id d = i → userId d ≠ u) →
                     List.find (q_id_userId i u) (files w) = None).
  { intros H. apply find_none_intro. intros d Hd.
    destruct (q_id_userId i u d) eqn:E; [| done].
    apply q_id_userId_true in E as [E1 E2]. by destruct (H d Hd E1). }
  split.
  - intros u0 i0 [= <-] [= <-]. split; [| split].
    + intros H. rewrite Hforeign; [done |]. intros d Hd E. by destruct (H d Hd).
    + intros _ H. by rewrite Hforeign.
    + destruct (List.find _ (files w)) as [f |]; simpl; eauto.
  - intros d. destruct (List.find _ (files w)) as [f |] eqn:Hf; simpl; [| done].
    intros [= ->]. apply find_some_elem in Hf as [Hd Hq].
    apply q_id_userId_true in Hq as [<- <-]. done.
Qed.

Section Content.

Variable mime_lookup : string → option string.

Lemma getFile_run req w f :
  params_id req = toHexString (_id f) →
  lookup_file w (_id f) = Some f →
  run (FilesController.getFile mime_lookup req) w =
    (if negb (truthy (isPublic f)) && negb (requester_is_owner req w f)
     then Responded 404 (PError "Not found")
     else if bool_decide (type f = JStr "folder")
     then Responded 400 (PError "A folder doesn't have content")
     else match filePath_of_read w f (query_size req) with
          | Some fileData =>
              Responded 200 (PData (FilesController.mimeType_of mime_lookup (name f)) fileData)
          | None => Responded 404 (PError "Not found")
          end, w).
Proof.
  intros Hp Hf. unfold run, FilesController.getFile. rewrite Hp.
  rewrite (bind_continue _ _ w (_id f) w)
    by (apply ObjectId_string_ok, ObjectId_of_toHexString).
  rewrite (bind_continue _ _ w (Some f) w) by (unfold Collection.findOne; by rewrite <- Hf).
  unfold requester_is_owner, session_user, filePath_of_read.
  unfold mbind, Async_bind, RedisClient.get.
  destruct (truthy_str (x_token req)); simpl.
  - destruct (entry_value <$> cache w !! _) as [v |]; simpl.
    + destruct (negb (v =? "")%string) eqn:Hv; simpl.
      * destruct (negb (truthy (isPublic f)) && negb (v =? toHexString (userId f))%string);
          simpl; [done |].
        destruct (bool_decide (type f = JStr "folder")); simpl; [done |].
        destruct (FilesController.filePath_of f (query_size req)); simpl; [| done].
        unfold fsPromises.readFile. by destruct (disk w !! _).
      * rewrite andb_true_r.
        destruct (negb (truthy (isPublic f))); simpl; [done |].
        destruct (bool_decide (type f = JStr "folder")); simpl; [done |].
        destruct (FilesController.filePath_of f (query_size req)); simpl; [| done].
        unfold fsPromises.readFile. by destruct (disk w !! _).
    + rewrite andb_true_r.
      destruct (negb (truthy (isPublic f))); simpl; [done |].
      destruct (bool_decide (type f = JStr "folder")); simpl; [done |].
      destruct (FilesController.filePath_of f (query_size req)); simpl; [| done].
      unfold fsPromises.readFile. by destruct (disk w !! _).
  - rewrite andb_true_r.
    destruct (negb (truthy (isPublic f))); simpl; [done |].
    destruct (bool_decide (type f = JStr "folder")); simpl; [done |].
    destruct (FilesController.filePath_of f (query_size req)); simpl; [| done].
    unfold fsPromises.readFile. by destruct (disk w !! _).
Qed.

(** C5, as the code has it.  A data request for a stored folder is
    answered 400 "A folder doesn't have content" when the folder is
    public or the request carries its owner's token, and 404 "Not found"
    otherwise: the visibility check comes before the folder check. *)
Theorem getFile_folder req w f :
  params_id req = toHexString (_id f) →
  lookup_file w (_id f) = Some f →
  type f = JStr "folder" →
  let out := run (FilesController.getFile mime_lookup req) w in
  (truthy (isPublic f) = true ∨ requester_is_owner req w f = true →
   out = (Responded 400 (PError "A folder doesn't have content"), w)) ∧
  (truthy (isPublic f) = false → requester_is_owner req w f = false →
   out = (Responded 404 (PError "Not found"), w)).
Proof.
  intros Hp Hf Ht out. subst out. rewrite (getFile_run _ _ _ Hp Hf).
  rewrite (bool_decide_eq_true_2 _ Ht). split.
  - intros [-> | ->]; simpl; [done |]. by rewrite andb_false_r.
  - by intros -> ->.
Qed.

Lemma find_update_first i u g l f :
  List.find (q_id i) l = Some f → userId f = u →
  List.find (q_id_userId i u) l = Some f ∧
  List.find (q_id i) (Collection.update_first (q_id_userId i u) g l)
    = Some {| _id := _id f; document := g f |}.
Proof.
  intros Hf Hu. induction l as [| d l IH]; simpl in *; [done |].
  unfold q_id_userId at 1 3. fold (q_id i d).
  destruct (q_id i d) eqn:Hd; simpl.
  - injection Hf as ->. rewrite (bool_decide_eq_true_2 _ Hu). simpl.
    split; [done |]. unfold q_id in *. simpl. by rewrite Hd.
  - rewrite Hd. by apply IH.
Qed.

Lemma setPublic_run flag req w f :
  params_id req = toHexString (_id f) →
  lookup_file w (_id f) = Some f →
  session_user req w = Some (toHexString (userId f)) →
  run (FilesController.setPublic flag req) w =
    (Responded 200 (PFile (republished flag f)),
     with_files (Collection.update_first (q_id_userId (_id f) (userId f))
                   (set_isPublic flag) (files w)) w).
Proof.
  intros Hp Hf Hs. unfold run, FilesController.setPublic. rewrite Hp.
  destruct (find_update_first (_id f) (userId f) (set_isPublic flag) _ _ Hf eq_refl)
    as [Hfind Hupd].
  rewrite (bind_continue _ _ w _ w) by (by rewrite tokenUser_spec, Hs).
  rewrite (bind_continue _ _ w (_id f) w)
    by (apply ObjectId_string_ok, ObjectId_of_toHexString).
  rewrite (bind_continue _ _ w (userId f) w)
    by (apply ObjectId_string_ok, ObjectId_of_toHexString).
  rewrite (bind_continue _ _ w (Some f) w)
    by (unfold Collection.findOne; by rewrite Hfind).
  rewrite (bind_continue _ _ w (_id f) w)
    by (apply ObjectId_string_ok, ObjectId_of_toHexString).
  rewrite (bind_continue _ _ w (userId f) w)
    by (apply ObjectId_string_ok, ObjectId_of_toHexString).
  unfold mbind at 1, Async_bind at 1, Collection.updateOne at 1.
  rewrite (bind_continue _ _ _ (_id f) _)
    by (apply ObjectId_string_ok, ObjectId_of_toHexString).
  unfold mbind, Async_bind, Collection.findOne. simpl. by rewrite Hupd.
Qed.

(** C4.  For a stored node that is not a folder, has [isPublic] false
    and whose blob is on the disk: a data request with no token, or with
    the valid token of a user who is not the owner, is answered 404; one
    with the owner's valid token is answered 200 with the stored bytes;
    and once the owner has published the node (200), a data request with
    no token is answered 200 with the same bytes. *)
Theorem getFile_visibility req w f fileData :
  params_id req = toHexString (_id f) →
  lookup_file w (_id f) = Some f →
  type f ≠ JStr "folder" →
  isPublic f = JBool false →
  filePath_of_read w f (query_size req) = Some fileData →
  let owner := toHexString (userId f) in
  let content :=
    Responded 200 (PData (FilesController.mimeType_of mime_lookup (name f)) fileData) in
  (x_token req = None →
   run (FilesController.getFile mime_lookup req) w
     = (Responded 404 (PError "Not found"), w)) ∧
  (∀ uid, session_user req w = Some uid → uid ≠ owner →
   run (FilesController.getFile mime_lookup req) w
     = (Responded 404 (PError "Not found"), w)) ∧
  (session_user req w = Some owner →
   run (FilesController.getFile mime_lookup req) w = (content, w)) ∧
  (∀ pub, params_id pub = toHexString (_id f) → session_user pub w = Some owner →
     let published := run (FilesController.putPublish pub) w in
     published.1 = Responded 200 (PFile (republished true f)) ∧
     (x_token req = None →
      run (FilesController.getFile mime_lookup req) published.2
        = (content, published.2))).
Proof.
  intros Hp Hf Ht Hpub Hread owner content.
  pose proof (getFile_run req w f Hp Hf) as Hrun.
  rewrite Hpub, (bool_decide_eq_false_2 _ Ht), Hread in Hrun. simpl in Hrun.
  split; [| split; [| split]].
  - intros Hno. rewrite Hrun. unfold requester_is_owner, session_user.
    by rewrite Hno.
  - intros uid Hs Hne. rewrite Hrun. unfold requester_is_owner. rewrite Hs.
    by destruct (String.eqb_spec uid (toHexString (userId f))).
  - intros Hs. rewrite Hrun. unfold requester_is_owner. rewrite Hs.
    by rewrite String.eqb_refl.
  - intros pub Hpp Hps published. subst published.
    unfold FilesController.putPublish.
    rewrite (setPublic_run true pub w f Hpp Hf Hps). simpl. split; [done |].
    intros Hno.
    destruct (find_update_first (_id f) (userId f) (set_isPublic true) _ _ Hf eq_refl)
      as [_ Hupd].
    rewrite (getFile_run req _ (republished true f) Hp) by exact Hupd.
    change (isPublic (republished true f)) with (JBool true).
    change (type (republished true f)) with (type f).
    change (name (republished true f)) with (name f).
    rewrite (bool_decide_eq_false_2 _ Ht).
    match goal with
    | |- context [filePath_of_read ?w' ?f' ?z] =>
        change (filePath_of_read w' f' z) with (filePath_of_read w f z)
    end.
    by rewrite Hread.
Qed.

End Content.

(** ** Creating nodes *)

Section Creation.

Variable base64_decode : string → string.
Variable path_join : string → string → string.

Lemma validate_run n t d w :
  FilesController.validate n t d w =
    if negb (truthy n) then (Return (Responded 400 (PError "Missing name")), w)
    else if negb (truthy t) || negb (includes allowed_types t)
    then (Return (Responded 400 (PError "Missing type")), w)
    else if negb (truthy d) && negb (bool_decide (t = JStr "folder"))
    then (Return (Responded 400 (PError "Missing data")), w)
    else (Continue tt, w).
Proof.
  unfold FilesController.validate, allowed_types, mbind, Async_bind.
  destruct (negb (truthy n)); simpl; [done |].
  destruct (_ || _); simpl; [done |].
  by destruct (_ && _).
Qed.

Lemma validate_passes req w :
  passes_validation req →
  FilesController.validate (body_name (body req)) (body_type (body req))
    (body_data (body req)) w = (Continue tt, w).
Proof.
  intros (Hn & Ht & Hd). rewrite validate_run, Hn, Ht, (allowed_types_truthy _ Ht).
  simpl. destruct Hd as [-> | ->]; [done |]. by rewrite andb_false_r.
Qed.

Lemma checkParent_run pid w :
  FilesController.checkParent pid w =
    if strict_ne_zero pid then
      match resolve pid w with
      | Malformed =>
          (Return (Rejected "Argument passed in must be a single String of 12 bytes or a string of 24 hex characters"), w)
      | Missing => (Return (Responded 400 (PError "Parent not found")), drawn pid w)
      | Resolves pf =>
          if bool_decide (type pf = JStr "folder") then (Continue tt, drawn pid w)
          else (Return (Responded 400 (PError "Parent is not a folder")), drawn pid w)
      end
    else (Continue tt, w).
Proof.
  unfold FilesController.checkParent, resolve, lookup_file.
  destruct (strict_ne_zero pid); simpl; [| done].
  unfold mbind, Async_bind, ObjectId, Collection.findOne, generate.
  destruct pid as [| | b | n | s]; simpl; try done;
    try (destruct (ObjectId_of_string s) as [i |]; simpl; [| done]);
    (destruct (List.find _ _) as [pf |]; simpl; [| done]);
    by destruct (bool_decide _).
Qed.

(** What [persist] comes to: a rejection that stores nothing, or a 201
    whose document was appended. *)
Lemma persist_created uid n t pub pid d w1 o w' :
  FilesController.persist base64_decode path_join uid n t pub pid d w1 = (o, w') →
  ((∃ e, o = Return (Rejected e)) ∧ files w' = files w1) ∨
  ∃ id doc owner,
    o = Continue (Responded 201 (PCreated id doc)) ∧
    ObjectId_of_string uid = Some owner ∧
    userId doc = owner ∧ name doc = n ∧ type doc = t ∧ isPublic doc = pub ∧
    files w' = (files w1 ++ [{| _id := id; document := doc |}])%list ∧
    cache w' = cache w1 ∧ users w' = users w1 ∧
    parentId doc =
      (if strict_ne_zero pid
       then match pid with
            | JStr s => from_option Parent Root (ObjectId_of_string s)
            | _ => Parent (oid_src w1 (oid_next w1))
            end
       else Root) ∧
    ((t = JStr "folder" ∧ localPath doc = None ∧ disk w' = disk w1) ∨
     (t ≠ JStr "folder" ∧ ∃ s, d = JStr s ∧
        let p := path_join (folderPath_of w1) (uuid_src w1 (uuid_next w1)) in
        localPath doc = Some p ∧ disk w' = <[p := base64_decode s]> (disk w1))).
Proof.
  unfold FilesController.persist.
  unfold mbind, Async_bind, ObjectId, generate, Collection.insertOne, Collection.append,
    FilesController.folderPath_env, uuidv4, fsPromises.mkdir, fsPromises.writeFile,
    FilesController.Buffer_from, fileQueue_add, when, mret, Async_ret, throw.
  intros H.
  destruct (ObjectId_of_string uid) as [owner |] eqn:Ho; simpl in H;
    [| injection H as <- <-; left; by eauto].
  destruct (strict_ne_zero pid) eqn:Hz;
    [destruct pid as [| | b | k | s]; simpl in H;
     try (injection H as <- <-; left; by eauto);
     try (destruct (ObjectId_of_string s) as [p |] eqn:Hp; simpl in H;
          [| injection H as <- <-; left; by eauto]) |];
    (destruct (bool_decide (t = JStr "folder")) eqn:Hf; simpl in H;
     [ injection H as <- <-; right; do 3 eexists; repeat split; try done;
       left; by apply bool_decide_eq_true in Hf
     | destruct d; simpl in H; try (injection H as <- <-; left; by eauto);
       destruct (bool_decide (t = JStr "image")); simpl in H;
       injection H as <- <-; right; do 3 eexists; repeat split; try done;
       right; (split; [by apply bool_decide_eq_false in Hf | eexists; by repeat split]) ]).
Qed.

Lemma persist_succeeds uid owner n t pub pid d w1 :
  ObjectId_of_string uid = Some owner →
  (strict_ne_zero pid = false ∨ ∃ s p, pid = JStr s ∧ ObjectId_of_string s = Some p) →
  (t = JStr "folder" ∨ ∃ b, d = JStr b) →
  ∃ id doc w',
    FilesController.persist base64_decode path_join uid n t pub pid d w1
      = (Continue (Responded 201 (PCreated id doc)), w').
Proof.
  intros Ho Hp Hd. unfold FilesController.persist.
  rewrite (bind_continue _ _ w1 owner w1) by (by apply ObjectId_string_ok).
  assert (∃ r, (if strict_ne_zero pid
                then p ← ObjectId pid; mret (Parent p) else mret Root) w1
               = (Continue r, w1)) as [r Hr].
  { destruct Hp as [-> | (s & p & -> & Hs)]; [by eauto |]. simpl.
    exists (Parent p). by rewrite (bind_continue _ _ w1 p w1) by (by apply ObjectId_string_ok). }
  rewrite (bind_continue _ _ _ _ _ Hr).
  destruct (bool_decide (t = JStr "folder")) eqn:Hf.
  - unfold mbind, Async_bind, Collection.insertOne, Collection.append, generate; simpl.
    eauto.
  - destruct Hd as [-> | [b ->]]; [by rewrite bool_decide_eq_true_2 in Hf |].
    unfold mbind, Async_bind, Collection.insertOne, Collection.append, generate,
      FilesController.folderPath_env, uuidv4, fsPromises.mkdir, fsPromises.writeFile,
      FilesController.Buffer_from, fileQueue_add, when; simpl.
    destruct (bool_decide (t = JStr "image")); simpl; eauto.
Qed.

Lemma postUpload_run req w uid :
  session_user req w = Some uid →
  passes_validation req →
  run (FilesController.postUpload base64_decode path_join req) w =
    match FilesController.checkParent (parentId_of req) w with
    | (Return o, w1) => (o, w1)
    | (Continue _, w1) =>
        run (FilesController.persist base64_decode path_join uid
               (body_name (body req)) (body_type (body req))
               (default_to (JBool false) (body_isPublic (body req)))
               (parentId_of req) (body_data (body req))) w1
    end.
Proof.
  intros Hs Hv. unfold run at 1, FilesController.postUpload.
  rewrite (bind_continue _ _ w uid w) by (by rewrite tokenUser_spec, Hs).
  rewrite (bind_continue _ _ w tt w) by (by apply validate_passes).
  fold (parentId_of req). unfold mbind at 1, Async_bind at 1.
  destruct (FilesController.checkParent (parentId_of req) w) as [[[] | o] w1]; [| done].
  unfold run. done.
Qed.

Lemma fresh_not_found w :
  fresh_ids w → lookup_file w (oid_src w (oid_next w)) = None.
Proof.
  intros Hfresh. apply find_none_intro. intros d Hd.
  destruct (q_id _ d) eqn:E; [| done]. apply q_id_true in E.
  by destruct (Hfresh (oid_next w) d).
Qed.

Lemma files_drawn v w : files (drawn v w) = files w.
Proof. by destruct v. Qed.

Lemma disk_drawn v w : disk (drawn v w) = disk w.
Proof. by destruct v. Qed.

(** C3, where the code departs from it.  For an authenticated creation
    request that passes the name, type and data checks and whose
    [parentId] is not the root sentinel: when the [parentId] resolves to
    a stored node of type folder the answer is 201 and the created node,
    appended to the collection, records that folder's identifier as its
    [parentId], and a 201 is answered in no other case; a well-formed
    [parentId] that resolves to no node is answered 400 "Parent not
    found"; one that resolves to a node that is not a folder is answered
    400 "Parent is not a folder"; in both cases nothing is stored.  But a
    [parentId] that is no identifier at all (a string the [ObjectId]
    constructor rejects, or a boolean), which resolves to no node
    either, is not answered 400: the constructor throws before the
    lookup, no response is sent and nothing is stored. *)
Theorem postUpload_parent_integrity req w uid :
  session_user req w = Some uid →
  passes_validation req →
  fresh_ids w →
  strict_ne_zero (parentId_of req) = true →
  let out := run (FilesController.postUpload base64_decode path_join req) w in
  (∀ pf owner, resolve (parentId_of req) w = Resolves pf → type pf = JStr "folder" →
     ObjectId_of_string uid = Some owner →
     (body_type (body req) = JStr "folder" ∨ ∃ s, body_data (body req) = JStr s) →
     ∃ id doc, out.1 = Responded 201 (PCreated id doc) ∧
       userId doc = owner ∧ parentId doc = Parent (_id pf) ∧
       files out.2 = (files w ++ [{| _id := id; document := doc |}])%list) ∧
  (∀ id doc, out.1 = Responded 201 (PCreated id doc) →
     ∃ pf, resolve (parentId_of req) w = Resolves pf ∧ pf ∈ files w ∧
           type pf = JStr "folder" ∧ parentId doc = Parent (_id pf) ∧
           files out.2 = (files w ++ [{| _id := id; document := doc |}])%list) ∧
  (resolve (parentId_of req) w = Missing →
     out.1 = Responded 400 (PError "Parent not found") ∧
     files out.2 = files w ∧ disk out.2 = disk w) ∧
  (∀ pf, resolve (parentId_of req) w = Resolves pf → type pf ≠ JStr "folder" →
     out.1 = Responded 400 (PError "Parent is not a folder") ∧
     files out.2 = files w ∧ disk out.2 = disk w) ∧
  (resolve (parentId_of req) w = Malformed → ∃ e, out = (Rejected e, w)).
Proof.
  intros Hs Hv Hfresh Hz out. subst out.
  rewrite (postUpload_run _ _ _ Hs Hv), checkParent_run, Hz.
  destruct (resolve (parentId_of req) w) as [| | pf] eqn:Hr.
  - repeat split; try done; intros; simplify_eq. by eexists.
  - simpl. rewrite files_drawn, disk_drawn. repeat split; try done; intros; simplify_eq.
  - assert (Hstr : ∃ s, parentId_of req = JStr s ∧ ObjectId_of_string s = Some (_id pf) ∧
                        pf ∈ files w).
    { unfold resolve in Hr.
      destruct (parentId_of req) as [| | b | k | s];
        try (rewrite (fresh_not_found _ Hfresh) in Hr; done); [done |].
      destruct (ObjectId_of_string s) as [i |] eqn:Hi; [| done]. simpl in Hr.
      destruct (lookup_file w i) as [pf' |] eqn:Hl; [| done].
      simpl in Hr. injection Hr as ->. apply lookup_file_Some in Hl as [Hin <-]. eauto. }
    destruct Hstr as (s & Hpid & Hi & Hin).
    destruct (bool_decide (type pf = JStr "folder")) eqn:Hf.
    + apply bool_decide_eq_true in Hf.
      split; [| split; [| split; [done | split; [intros ? [= <-] ?; done | done]]]].
      * intros pf0 owner [= <-] _ Ho Hd.
        edestruct (persist_succeeds uid owner (body_name (body req)) (body_type (body req))
                     (default_to (JBool false) (body_isPublic (body req)))
                     (parentId_of req) (body_data (body req)) (drawn (parentId_of req) w) Ho)
          as (id & doc & w' & Hrun); [right; by eauto | exact Hd |].
        unfold run. rewrite Hrun. simpl.
        apply persist_created in Hrun
          as [[[e ?] _] | (id' & doc' & ow & [= <- <-] & Ho' & Hu & _ & _ & _ & Hfiles & _ & _ & Hpar & _)];
          [done |].
        exists id, doc. rewrite Hz, Hpid, Hi in Hpar. rewrite files_drawn in Hfiles.
        repeat split; try done. congruence.
      * intros id doc Hout. unfold run in Hout |- *.
        destruct (FilesController.persist _ _ _ _ _ _ _ _ _) as [o w'] eqn:Hp.
        apply persist_created in Hp
          as [[[e ->] _] | (id' & doc' & ow & -> & _ & _ & _ & _ & _ & Hfiles & _ & _ & Hpar & _)];
          [done |].
        simpl in Hout. injection Hout as -> ->. rewrite Hz, Hpid, Hi in Hpar.
        rewrite files_drawn in Hfiles. exists pf. done.
    + apply bool_decide_eq_false in Hf. simpl. rewrite files_drawn, disk_drawn.
      repeat split; try done; intros; simplify_eq.
Qed.

(** C10.  The parent check does not look at the owner: when an
    authenticated user sends an otherwise valid creation request whose
    [parentId] is the identifier of a stored folder owned by another
    user, the answer is 201 and the new node, owned by the requester,
    is appended with that folder as its [parentId]. *)
Theorem postUpload_under_foreign_folder req w uidA a F :
  session_user req w = Some uidA →
  ObjectId_of_string uidA = Some a →
  lookup_file w (_id F) = Some F →
  type F = JStr "folder" →
  userId F ≠ a →
  body_parentId (body req) = JStr (toHexString (_id F)) →
  truthy (body_name (body req)) = true →
  includes allowed_types (body_type (body req)) = true →
  (body_type (body req) = JStr "folder" ∨
   ∃ s, body_data (body req) = JStr s ∧ s ≠ "") →
  let out := run (FilesController.postUpload base64_decode path_join req) w in
  ∃ id doc,
    out.1 = Responded 201 (PCreated id doc) ∧
    userId doc = a ∧ parentId doc = Parent (_id F) ∧
    files out.2 = (files w ++ [{| _id := id; document := doc |}])%list.
Proof.
  intros Hs Ha HF Ht _ Hpid Hn Hty Hd out. subst out.
  assert (Hv : passes_validation req).
  { repeat split; try done. destruct Hd as [-> | (s & -> & Hne)]; [by right |].
    left. simpl. by destruct (String.eqb_spec s ""). }
  assert (Hp : parentId_of req = JStr (toHexString (_id F))).
  { unfold parentId_of. by rewrite Hpid. }
  rewrite (postUpload_run _ _ _ Hs Hv), checkParent_run, Hp. simpl.
  rewrite ObjectId_of_toHexString. simpl. rewrite HF. simpl.
  rewrite (bool_decide_eq_true_2 _ Ht).
  edestruct (persist_succeeds uidA a (body_name (body req)) (body_type (body req))
               (default_to (JBool false) (body_isPublic (body req)))
               (JStr (toHexString (_id F))) (body_data (body req)) w Ha)
    as (id & doc & w' & Hrun).
  { right. do 2 eexists. split; [done |]. apply ObjectId_of_toHexString. }
  { destruct Hd as [-> | (s & -> & _)]; eauto. }
  unfold run. rewrite Hrun. simpl.
  apply persist_created in Hrun
    as [[[e ?] _] | (id' & doc' & owner & [= <- <-] & Ho & Hu & _ & _ & _ & Hfiles & _ & _ & Hpar & _)];
    [done |].
  exists id, doc. simpl in Hpar. rewrite ObjectId_of_toHexString in Hpar.
  repeat split; try done. congruence.
Qed.

End Creation.

(** ** What later operations keep *)

Lemma keeps_refl l : keeps_localPath l l.
Proof. intros k d H. eauto. Qed.

Lemma keeps_trans l1 l2 l3 :
  keeps_localPath l1 l2 → keeps_localPath l2 l3 → keeps_localPath l1 l3.
Proof.
  intros H12 H23 k d H.
  destruct (H12 k d H) as (d2 & H2 & Hi & Ht & Hl).
  destruct (H23 k d2 H2) as (d3 & H3 & Hi' & Ht' & Hl').
  exists d3. repeat split; congruence.
Qed.

Lemma keeps_append l x : keeps_localPath l (l ++ [x]).
Proof.
  intros k d H. exists d. split; [| done].
  rewrite lookup_app_l; [done |]. by apply lookup_lt_Some in H.
Qed.

Lemma keeps_update_first q flag l :
  keeps_localPath l (Collection.update_first q (set_isPublic flag) l).
Proof.
  induction l as [| a l IH]; intros k d H; [done |]. simpl.
  destruct (q a).
  - destruct k as [| k]; simpl in *; [| eauto].
    injection H as ->. eauto.
  - destruct k as [| k]; simpl in *; [eauto |]. by apply IH.
Qed.

Lemma stable_bind {A B} (m : Async A) (k : A → Async B) :
  stable m → (∀ a, stable (k a)) → stable (m ≫= k).
Proof.
  intros Hm Hk w. unfold mbind, Async_bind.
  specialize (Hm w). destruct (m w) as [[a | o] w1]; simpl in *; [| done].
  eapply keeps_trans; [exact Hm | apply Hk].
Qed.

Lemma stable_reads {A} (m : Async A) :
  (∀ w, files (m w).2 = files w) → stable m.
Proof. intros H w. rewrite H. apply keeps_refl. Qed.

Lemma stable_when c m : stable m → stable (when c m).
Proof. intros H. destruct c; [done |]. by apply stable_reads. Qed.

Lemma stable_ObjectId v : stable (ObjectId v).
Proof.
  apply stable_reads. intros w. destruct v; simpl; try done.
  by destruct (ObjectId_of_string s).
Qed.

Lemma stable_set key value duration : stable (RedisClient.set key value duration).
Proof. by apply stable_reads. Qed.

Lemma stable_updateOne q flag : stable (Collection.updateOne q (set_isPublic flag)).
Proof. intros w. apply keeps_update_first. Qed.

Lemma stable_insertOne doc : stable (Collection.insertOne doc).
Proof. intros w. apply keeps_append. Qed.

Lemma stable_aggregate q skip limit : stable (Collection.aggregate q skip limit).
Proof.
  apply stable_reads. intros w. unfold Collection.aggregate. by destruct (_ <? _)%Z.
Qed.

Lemma stable_tokenUser req : stable (FilesController.tokenUser req).
Proof. apply stable_reads. intros w. rewrite tokenUser_spec. by destruct (session_user req w). Qed.

Create HintDb stable.
#[local] Hint Resolve stable_ObjectId stable_set stable_updateOne stable_insertOne
  stable_aggregate stable_tokenUser stable_when : stable.
#[local] Hint Extern 5 (stable _) => (apply stable_reads; intros; reflexivity) : stable.

Ltac stable_step :=
  first
    [ solve [auto with stable]
    | apply stable_when
    | apply stable_bind; [| intros]
    | match goal with
      | |- stable (match ?x with _ => _ end) => destruct x
      | |- stable (if ?c then _ else _) => destruct c
      | |- stable (let _ := _ in _) => cbv zeta
      end ].

Section Stability.

Variable base64_decode : string → string.
Variable sha1 : string → string.
Variable path_join : string → string → string.
Variable mime_lookup : string → option string.

Lemma stable_handler c : stable (handler base64_decode sha1 path_join mime_lookup c).
Proof.
  destruct c as [req | req | req | req | req | req | req | req]; simpl.
  - unfold AuthController.getConnect. repeat stable_step.
  - unfold AuthController.getDisconnect. repeat stable_step.
  - unfold FilesController.postUpload, FilesController.validate,
      FilesController.checkParent, FilesController.persist,
      FilesController.Buffer_from. repeat stable_step.
  - unfold FilesController.getShow. repeat stable_step.
  - unfold FilesController.getIndex. repeat stable_step.
  - unfold FilesController.putPublish, FilesController.setPublic. repeat stable_step.
  - unfold FilesController.putUnpublish, FilesController.setPublic. repeat stable_step.
  - unfold FilesController.getFile. repeat stable_step.
Qed.

Lemma serve_keeps cs w :
  keeps_localPath (files w) (files (serve base64_decode sha1 path_join mime_lookup cs w)).
Proof.
  revert w. induction cs as [| c cs IH]; intros w; simpl; [apply keeps_refl |].
  eapply keeps_trans; [| apply IH].
  pose proof (stable_handler c w) as H. unfold run.
  by destruct (handler _ _ _ _ c w) as [[o | o] w'].
Qed.

Lemma postUpload_created req w id doc w' :
  run (FilesController.postUpload base64_decode path_join req) w
    = (Responded 201 (PCreated id doc), w') →
  ∃ uid w1,
    files w1 = files w ∧ disk w1 = disk w ∧
    FilesController.persist base64_decode path_join uid
      (body_name (body req)) (body_type (body req))
      (default_to (JBool false) (body_isPublic (body req)))
      (parentId_of req) (body_data (body req)) w1
    = (Continue (Responded 201 (PCreated id doc)), w').
Proof.
  unfold run, FilesController.postUpload. fold (parentId_of req).
  unfold mbind at 1, Async_bind at 1. rewrite tokenUser_spec.
  destruct (session_user req w) as [uid |]; [| done].
  unfold mbind at 1, Async_bind at 1. rewrite validate_run.
  destruct (negb (truthy _)); [done |].
  destruct (_ || _); [done |].
  destruct (_ && _); [done |].
  unfold mbind at 1, Async_bind at 1. rewrite checkParent_run.
  assert (Htail : ∀ w1, files w1 = files w → disk w1 = disk w →
    (let (o, w2) :=
       FilesController.persist base64_decode path_join uid
         (body_name (body req)) (body_type (body req))
         (default_to (JBool false) (body_isPublic (body req)))
         (parentId_of req) (body_data (body req)) w1 in
     match o with Continue o | Return o => (o, w2) end)
      = (Responded 201 (PCreated id doc), w') →
    ∃ uid0 w2, files w2 = files w ∧ disk w2 = disk w ∧
      FilesController.persist base64_decode path_join uid0
        (body_name (body req)) (body_type (body req))
        (default_to (JBool false) (body_isPublic (body req)))
        (parentId_of req) (body_data (body req)) w2
      = (Continue (Responded 201 (PCreated id doc)), w')).
  { intros w1 Hf Hd H. exists uid, w1. split; [done |]. split; [done |].
    destruct (FilesController.persist _ _ _ _ _ _ _ _ _) as [o w2] eqn:Hp.
    apply persist_created in Hp as [[[e ->] _] | (i & dc & ow & -> & _)]; [done |].
    by simplify_eq. }
  destruct (strict_ne_zero (parentId_of req)); cbv beta iota; [| by apply Htail].
  destruct (resolve (parentId_of req) w) as [| | pf]; [done | done |].
  destruct (bool_decide _); cbv beta iota; [| done].
  apply Htail; [apply files_drawn | apply disk_drawn].
Qed.

End Stability.

(** ** Listing *)

Lemma q_parentId_userId_true p u d :
  q_parentId_userId p u d = true ↔ parentId d = p ∧ userId d = u.
Proof.
  unfold q_parentId_userId. rewrite andb_true_iff, !bool_decide_eq_true. done.
Qed.

Lemma page_of_length p u page w : length (page_of p u page w) ≤ 20.
Proof. unfold page_of. rewrite length_take. lia. Qed.

Lemma page_of_elem p u page w (d : FileDoc) :
  d ∈ page_of p u page w → d ∈ files w ∧ parentId d = p ∧ userId d = u.
Proof.
  unfold page_of. intros H%elem_of_take. destruct H as (k & H & _).
  apply list_elem_of_lookup_2 in H. apply subseteq_drop in H.
  apply list_elem_of_In, filter_In in H as [H1 H2].
  apply list_elem_of_In in H1. by apply q_parentId_userId_true in H2.
Qed.

Lemma NoDup_filter_bool {A} (q : A → bool) (l : list A) : NoDup l → NoDup (List.filter q l).
Proof.
  induction 1 as [| x l Hx Hl IH]; simpl; [constructor |].
  destruct (q x); [| done]. constructor; [| done].
  intros Hin. apply Hx. apply list_elem_of_In, filter_In in Hin as [Hin _].
  by apply list_elem_of_In.
Qed.

Lemma page_of_disjoint p u page w (d : FileDoc) :
  NoDup (files w) → (0 ≤ page)%Z → ((page + 1) * 20 ≤ MAX_SAFE_INTEGER)%Z →
  d ∈ page_of p u page w → d ∉ page_of p u (page + 1) w.
Proof.
  unfold page_of. intros Hnd Hp Hsafe H1 H2.
  rewrite Number_times_exact in H1, H2 by lia.
  set (l := List.filter (q_parentId_userId p u) (files w)) in *.
  assert (Hl : NoDup l) by by apply NoDup_filter_bool.
  replace (Z.to_nat ((page + 1) * 20)) with (Z.to_nat (page * 20) + 20) in H2 by lia.
  rewrite <- drop_drop in H2.
  set (r := drop (Z.to_nat (page * 20)) l) in *.
  assert (Hr : NoDup r) by (subst r; eapply sublist_NoDup; [done | apply sublist_drop]).
  rewrite <- (take_drop 20 r) in Hr. apply NoDup_app in Hr as (_ & Hdis & _).
  apply (Hdis d H1). apply elem_of_take in H2 as (k & H2 & _).
  by apply list_elem_of_lookup_2 in H2.
Qed.

Lemma getIndex_run req w uid u :
  session_user req w = Some uid →
  ObjectId_of_string uid = Some u →
  (0 ≤ FilesController.page_or_0 (query_page req))%Z →
  run (FilesController.getIndex req) w =
    let page := FilesController.page_or_0 (query_page req) in
    match FilesController.parentId_or_0 (query_parentId req) with
    | JStr s =>
        if bool_decide (s = "0") then (Responded 200 (PFiles (page_of Root u page w)), w)
        else match ObjectId_of_string s with
             | Some i => (Responded 200 (PFiles (page_of (Parent i) u page w)), w)
             | None => (Rejected "Argument passed in must be a single String of 12 bytes or a string of 24 hex characters", w)
             end
    | JBool _ => (Rejected "Argument passed in must be a single String of 12 bytes or a string of 24 hex characters", w)
    | JUndefined | JNull | JNum _ =>
        (Responded 200 (PFiles (page_of (Parent (oid_src w (oid_next w))) u page
                                  (with_oid_next (S (oid_next w)) w))),
         with_oid_next (S (oid_next w)) w)
    end.
Proof.
  intros Hs Hu Hp. unfold run, FilesController.getIndex.
  rewrite (bind_continue _ _ w uid w) by (by rewrite tokenUser_spec, Hs).
  assert (Hagg : ∀ p w1, files w1 = files w →
    (ObjectId (JStr uid) ≫= λ u0,
       Collection.aggregate (q_parentId_userId p u0)
         (Number_times (FilesController.page_or_0 (query_page req)) (Z.of_nat 20)) 20 ≫= λ fs,
         mret (Responded 200 (PFiles fs))) w1
    = (Continue (Responded 200
                   (PFiles (page_of p u (FilesController.page_or_0 (query_page req)) w1))), w1)).
  { intros p w1 Hf.
    rewrite (bind_continue _ _ w1 u w1) by (by apply ObjectId_string_ok).
    unfold mbind, Async_bind, Collection.aggregate.
    pose proof (Number_times_nonneg _ (Z.of_nat 20) Hp ltac:(lia)).
    destruct (Z.ltb_spec
                (Number_times (FilesController.page_or_0 (query_page req)) (Z.of_nat 20)) 0);
      [lia |]. simpl. by rewrite skip_beyond. }
  destruct (FilesController.parentId_or_0 (query_parentId req)) as [| | b | n | s] eqn:Hq;
    cbv zeta.
  - rewrite bool_decide_eq_false_2 by done.
    rewrite (bind_continue _ _ w (Parent (oid_src w (oid_next w)))
               (with_oid_next (S (oid_next w)) w)) by done.
    by rewrite Hagg.
  - rewrite bool_decide_eq_false_2 by done.
    rewrite (bind_continue _ _ w (Parent (oid_src w (oid_next w)))
               (with_oid_next (S (oid_next w)) w)) by done.
    by rewrite Hagg.
  - rewrite bool_decide_eq_false_2 by done. done.
  - rewrite bool_decide_eq_false_2 by done.
    rewrite (bind_continue _ _ w (Parent (oid_src w (oid_next w)))
               (with_oid_next (S (oid_next w)) w)) by done.
    by rewrite Hagg.
  - destruct (decide (s = "0")) as [-> | Hne].
    + rewrite !bool_decide_eq_true_2 by done.
      rewrite (bind_continue _ _ w Root w) by done. by rewrite Hagg.
    + rewrite (bool_decide_eq_false_2 (JStr s = JStr "0")) by congruence.
      rewrite (bool_decide_eq_false_2 (s = "0")) by done.
      destruct (ObjectId_of_string s) as [i |] eqn:Hi.
      * rewrite (bind_continue _ _ w (Parent i) w)
          by (by rewrite (bind_continue _ _ w i w) by (by apply ObjectId_string_ok)).
        by rewrite Hagg.
      * rewrite (bind_return _ _ w (Rejected "Argument passed in must be a single String of 12 bytes or a string of 24 hex characters") w); [done |].
        rewrite (bind_return _ _ w (Rejected "Argument passed in must be a single String of 12 bytes or a string of 24 hex characters") w); [done |].
        unfold ObjectId. by rewrite Hi.
Qed.

(** C8, where the code departs from it.  When the [parentId] parameter
    is absent (or empty), [getIndex] does not list the root: the value
    [0] it falls back to is not the string ['0'] it compares with, so the
    match is on a newly generated identifier, and no node of the page
    has the root sentinel as its [parentId]. *)
Theorem getIndex_absent_parentId req w uid u :
  session_user req w = Some uid →
  ObjectId_of_string uid = Some u →
  truthy_str (query_parentId req) = false →
  (0 ≤ FilesController.page_or_0 (query_page req))%Z →
  let out := run (FilesController.getIndex req) w in
  let listed :=
    page_of (Parent (oid_src w (oid_next w))) u
      (FilesController.page_or_0 (query_page req)) w in
  out.1 = Responded 200 (PFiles listed) ∧
  ∀ d : FileDoc, d ∈ listed → parentId d ≠ Root.
Proof.
  intros Hs Hu Hq Hp out listed. subst out listed.
  rewrite (getIndex_run _ _ _ _ Hs Hu Hp). cbv zeta.
  unfold FilesController.parentId_or_0. rewrite Hq. split; [done |].
  intros d [_ [Hd _]]%page_of_elem. by rewrite Hd.
Qed.

(** X13.  With the [parentId] parameter present, and a page number that
    is not negative and whose offset, like the next page's, is a safe
    integer, the listing is as announced: the page has at most 20 nodes,
    each of the requester and of the requested parent, it is the slice
    of the matching nodes that starts at [page * 20], and two
    consecutive pages share no node when the stored nodes are
    distinct. *)
Lemma getIndex_explicit_parentId req w uid u s p :
  session_user req w = Some uid →
  ObjectId_of_string uid = Some u →
  query_parentId req = Some s → s ≠ "" →
  (s = "0" ∧ p = Root ∨ s ≠ "0" ∧ Parent <$> ObjectId_of_string s = Some p) →
  (0 ≤ FilesController.page_or_0 (query_page req))%Z →
  ((FilesController.page_or_0 (query_page req) + 1) * 20 ≤ MAX_SAFE_INTEGER)%Z →
  let page := FilesController.page_or_0 (query_page req) in
  run (FilesController.getIndex req) w = (Responded 200 (PFiles (page_of p u page w)), w) ∧
  length (page_of p u page w) ≤ 20 ∧
  (∀ d : FileDoc, d ∈ page_of p u page w → userId d = u ∧ parentId d = p) ∧
  page_of p u page w
    = take 20 (drop (Z.to_nat page * 20)
                 (List.filter (q_parentId_userId p u) (files w))) ∧
  (NoDup (files w) →
   ∀ d : FileDoc, d ∈ page_of p u page w → d ∉ page_of p u (page + 1) w).
Proof.
  intros Hs Hu Hq Hne Hpar Hp Hsafe page. subst page.
  split; [| split; [| split; [| split]]].
  - rewrite (getIndex_run _ _ _ _ Hs Hu Hp). cbv zeta.
    unfold FilesController.parentId_or_0. rewrite Hq. simpl.
    destruct (String.eqb_spec s ""); [done |]. simpl.
    destruct Hpar as [[-> ->] | [Hs0 Hi]].
    + by rewrite bool_decide_eq_true_2.
    + rewrite bool_decide_eq_false_2 by done.
      destruct (ObjectId_of_string s); [| done]. by injection Hi as <-.
  - apply page_of_length.
  - intros d Hd. by apply page_of_elem in Hd as (_ & ? & ?).
  - unfold page_of. rewrite Number_times_exact by lia. do 2 f_equal. lia.
  - intros Hnd d. by apply page_of_disjoint.
Qed.

(** ** The handlers on the concrete deployment *)

Lemma generated_hex n : ∃ t, toHexString (Scenario.generated n) = String "0" t.
Proof.
  unfold Scenario.generated, mk_oid.
  destruct (decide _) as [p |]; simpl; [| by eauto].
  cbv [String.append]. eauto.
Qed.

Lemma Scenario_fresh : fresh_ids Scenario.world.
Proof.
  intros n d _ Hd E. destruct (generated_hex n) as [t Ht].
  apply (f_equal toHexString) in E. simpl in E. rewrite Ht in E.
  simpl in Hd. unfold Scenario.world in Hd. simpl in Hd.
  repeat (apply elem_of_cons in Hd as [-> | Hd]; [discriminate E |]).
  by apply elem_of_nil in Hd.
Qed.


(** Alice logs out twice: the first call answers 204, the second 401. *)
Lemma getDisconnect_twice :
  let req := Scenario.request None (Some "alice-token") Scenario.no_body "" in
  let first := run (AuthController.getDisconnect req) Scenario.world in
  let second := run (AuthController.getDisconnect req) first.2 in
  first.1 = Responded 204 PEmpty ∧
  second.1 = Responded 401 (PError "Unauthorized") ∧
  is_error second.1 = true.
Proof. vm_compute. by repeat split. Qed.

(** Alice creates a folder under [invalid-id]: no response, no 400.  And
    she uploads a file under her folder [Documents]: it is created
    there. *)
Lemma postUpload_parent_integrity_witness :
  let bad := Scenario.creation "alice-token" (JStr "notes") (JStr "folder")
               (JStr "invalid-id") JUndefined in
  let good := Scenario.creation "alice-token" (JStr "b.txt") (JStr "file")
                (JStr "5f1e8896c7ba06511e683b25") (JStr "aGk=") in
  (∃ e, run (FilesController.postUpload Scenario.base64_decode Scenario.path_join bad)
          Scenario.world = (Rejected e, Scenario.world)) ∧
  let out := run (FilesController.postUpload Scenario.base64_decode Scenario.path_join good)
               Scenario.world in
  ∃ id doc,
    out.1 = Responded 201 (PCreated id doc) ∧
    userId doc = Scenario.alice_id ∧ parentId doc = Parent Scenario.documents_id ∧
    files out.2 = (files Scenario.world ++ [{| _id := id; document := doc |}])%list.
Proof.
  intros bad good. split.
  - apply (proj2 (proj2 (proj2 (proj2
             (postUpload_parent_integrity Scenario.base64_decode Scenario.path_join
                bad Scenario.world "5f1e7d35c7ba06511e683b21" eq_refl
                (conj eq_refl (conj eq_refl (or_intror eq_refl)))
                Scenario_fresh eq_refl)))) eq_refl).
  - apply (proj1 (postUpload_parent_integrity Scenario.base64_decode Scenario.path_join
                    good Scenario.world "5f1e7d35c7ba06511e683b21" eq_refl
                    (conj eq_refl (conj eq_refl (or_introl eq_refl)))
                    Scenario_fresh eq_refl)
             Scenario.documents Scenario.alice_id eq_refl eq_refl eq_refl
             (or_intror (ex_intro _ "aGk=" eq_refl))).
Defined.

(** Alice reads her private file. *)
Lemma getFile_visibility_witness :
  let req := Scenario.request None (Some "alice-token") Scenario.no_body
               "5f1e8896c7ba06511e683b26" in
  run (FilesController.getFile Scenario.mime_lookup req) Scenario.world
    = (Responded 200 (PData "text/plain" "hi"), Scenario.world).
Proof.
  intros req.
  apply (getFile_visibility Scenario.mime_lookup req Scenario.world Scenario.a_txt "hi"
           eq_refl eq_refl ltac:(discriminate) eq_refl eq_refl).
  reflexivity.
Defined.

(** Nobody in particular asks for the content of Alice's private folder:
    the answer is 404, not 400. *)
Lemma getFile_private_folder_anonymous :
  let req := Scenario.request None None Scenario.no_body "5f1e8896c7ba06511e683b25" in
  lookup_file Scenario.world Scenario.documents_id = Some Scenario.documents ∧
  type Scenario.documents = JStr "folder" ∧
  (run (FilesController.getFile Scenario.mime_lookup req) Scenario.world).1
    = Responded 404 (PError "Not found").
Proof. vm_compute. by repeat split. Qed.

(** Alice asks for the content of her own folder. *)
Lemma getFile_folder_witness :
  let req := Scenario.request None (Some "alice-token") Scenario.no_body
               "5f1e8896c7ba06511e683b25" in
  run (FilesController.getFile Scenario.mime_lookup req) Scenario.world
    = (Responded 400 (PError "A folder doesn't have content"), Scenario.world).
Proof.
  intros req.
  apply (getFile_folder Scenario.mime_lookup req Scenario.world Scenario.documents
           eq_refl eq_refl eq_refl).
  right. reflexivity.
Defined.

(** Alice asks for the node [invalid-id], and Bob for Alice's file: no
    response in the first case, 404 in the second. *)
Lemma getShow_no_existence_leak_witness :
  let unknown := Scenario.request None (Some "alice-token") Scenario.no_body "invalid-id" in
  let foreign := Scenario.request None (Some "bob-token") Scenario.no_body
                   "5f1e8896c7ba06511e683b26" in
  (∃ e, run (FilesController.getShow unknown) Scenario.world = (Rejected e, Scenario.world)) ∧
  run (FilesController.getShow foreign) Scenario.world
    = (Responded 404 (PError "Not found"), Scenario.world).
Proof.
  intros unknown foreign. split.
  - apply (proj1 (getShow_no_existence_leak unknown Scenario.world
                    "5f1e7d35c7ba06511e683b21" eq_refl)).
    left. reflexivity.
  - apply (proj1 (proj2 (getShow_no_existence_leak foreign Scenario.world
                           "5f1e7d35c7ba06511e683b22" eq_refl))
             Scenario.bob_id Scenario.a_txt_id eq_refl eq_refl).
    + exists Scenario.a_txt. split; [| done]. right. by left.
    + intros d Hd. simpl in Hd. unfold Scenario.world in Hd. simpl in Hd.
      repeat (apply elem_of_cons in Hd as [-> | Hd]; [by (intros; discriminate) |]).
      by apply elem_of_nil in Hd.
Defined.

(** Alice sends a creation request of type "bogus". *)
Lemma postUpload_validation_witness :
  let req := Scenario.creation "alice-token" (JStr "b.txt") (JStr "bogus")
               JUndefined JUndefined in
  run (FilesController.postUpload Scenario.base64_decode Scenario.path_join req)
    Scenario.world
    = (Responded 400 (PError "Missing type"), Scenario.world).
Proof.
  intros req.
  apply (postUpload_validation Scenario.base64_decode Scenario.path_join req Scenario.world
           "5f1e7d35c7ba06511e683b21" eq_refl); [reflexivity | by right].
Defined.

(** Alice lists her files without a [parentId]: her root folder is not
    listed, though it is with [parentId=0]. *)
Lemma getIndex_absent_parentId_witness :
  let req := Scenario.listing (Some "alice-token") None None in
  let root := Scenario.listing (Some "alice-token") (Some "0") None in
  (run (FilesController.getIndex req) Scenario.world).1 = Responded 200 (PFiles []) ∧
  (run (FilesController.getIndex root) Scenario.world).1
    = Responded 200 (PFiles [Scenario.documents]).
Proof.
  intros req root. split.
  - rewrite (proj1 (getIndex_absent_parentId req Scenario.world "5f1e7d35c7ba06511e683b21"
                      Scenario.alice_id eq_refl eq_refl eq_refl ltac:(done))).
    vm_compute. reflexivity.
  - vm_compute. reflexivity.
Defined.

(** Alice uploads a file into Bob's folder. *)
Lemma postUpload_under_foreign_folder_witness :
  let req := Scenario.creation "alice-token" (JStr "b.txt") (JStr "file")
               (JStr "5f1e8896c7ba06511e683b27") (JStr "aGk=") in
  let out := run (FilesController.postUpload Scenario.base64_decode Scenario.path_join req)
               Scenario.world in
  ∃ id doc,
    out.1 = Responded 201 (PCreated id doc) ∧
    userId doc = Scenario.alice_id ∧ parentId doc = Parent Scenario.shared_id ∧
    files out.2 = (files Scenario.world ++ [{| _id := id; document := doc |}])%list.
Proof.
  intros req out.
  apply (postUpload_under_foreign_folder Scenario.base64_decode Scenario.path_join req
           Scenario.world "5f1e7d35c7ba06511e683b21" Scenario.alice_id Scenario.shared
           eq_refl eq_refl eq_refl eq_refl ltac:(discriminate) eq_refl eq_refl eq_refl).
  right. exists "aGk=". by split.
Defined.


(** * Further properties *)

(** ** The cache client *)

(** X1.  A key that was set with a time to live that is positive (and a
    safe integer, which the server takes as it is sent) is read back
    with the value given and carries that time to live, whatever it
    carried before; set with a time to live that is not positive, the
    key is gone at once and reads as null.  In both cases no other key
    reads differently. *)
Theorem RedisClient_set_get key value duration w :
  let w' := (RedisClient.set key value duration w).2 in
  ((0 < duration ≤ MAX_SAFE_INTEGER)%Z →
   (RedisClient.get key w').1 = Continue (Some value) ∧
   cache w' !! key = Some {| entry_value := value; entry_ttl := Some duration |}) ∧
  ((duration ≤ 0)%Z → (RedisClient.get key w').1 = Continue None) ∧
  (∀ key', key' ≠ key → (RedisClient.get key' w').1 = (RedisClient.get key' w).1).
Proof.
  unfold RedisClient.set, RedisClient.setAsync, RedisClient.expire, RedisClient.get,
    mbind, Async_bind. simpl.
  destruct (Z.ltb_spec 0 duration) as [Hpos | Hneg].
  - rewrite alter_insert_eq. split; [| split].
    + intros _. by rewrite lookup_insert_eq.
    + lia.
    + intros key' Hne. by rewrite lookup_insert_ne.
  - split; [lia |]. split.
    + intros _. by rewrite lookup_delete_eq.
    + intros key' Hne. by rewrite lookup_delete_ne, lookup_insert_ne.
Qed.

(** X2.  A key that was deleted reads as null, no other key reads
    differently, and deleting a key that is not there changes nothing. *)
Theorem RedisClient_del_get key w :
  let w' := (RedisClient.del key w).2 in
  (RedisClient.get key w').1 = Continue None ∧
  (∀ key', key' ≠ key → (RedisClient.get key' w').1 = (RedisClient.get key' w).1) ∧
  (cache w !! key = None → w' = w).
Proof.
  unfold RedisClient.del, RedisClient.get. simpl.
  split; [by rewrite lookup_delete_eq |]. split.
  - intros key' Hne. by rewrite lookup_delete_ne.
  - intros Hnone. rewrite delete_id by done. by destruct w.
Qed.

(** ** Tokens *)

Lemma getDisconnect_run req w :
  run (AuthController.getDisconnect req) w =
    match session_user req w with
    | Some _ =>
        (Responded 204 PEmpty,
         with_cache (delete ("auth_" +:+ default "" (x_token req)) (cache w)) w)
    | None => (Responded 401 (PError "Unauthorized"), w)
    end.
Proof.
  unfold run, AuthController.getDisconnect, session_user, mbind, Async_bind.
  destruct (truthy_str (x_token req)); simpl; [| done].
  unfold RedisClient.get.
  destruct (truthy_str (entry_value <$> cache w !! _)) eqn:E; simpl; [| done].
  destruct (entry_value <$> cache w !! _); [done | discriminate].
Qed.

Lemma auth_key_inj t t' : "auth_" +:+ t = "auth_" +:+ t' → t = t'.
Proof. cbv [String.append]. by intros [= ->]. Qed.

Lemma toHexString_nonempty o : toHexString o ≠ "".
Proof.
  pose proof (oid_wf o) as H. unfold oid_hexb in H.
  apply Is_true_true, andb_true_iff in H as [H _]. apply Nat.eqb_eq in H.
  intros E. by rewrite E in H.
Qed.

Lemma session_user_token r w t :
  x_token r = Some t → t ≠ "" →
  session_user r w =
    match entry_value <$> cache w !! ("auth_" +:+ t) with
    | Some v => if negb (String.eqb v "") then Some v else None
    | None => None
    end.
Proof.
  intros Hr Ht. unfold session_user. rewrite Hr. simpl.
  destruct (String.eqb_spec t ""); [done |]. simpl.
  by destruct (entry_value <$> cache w !! _).
Qed.

Lemma session_user_no_token r w :
  (x_token r = None ∨ x_token r = Some "") → session_user r w = None.
Proof. unfold session_user. by intros [-> | ->]. Qed.

Section Tokens.

Variable base64_decode : string → string.
Variable sha1 : string → string.
Variable path_join : string → string → string.
Variable mime_lookup : string → option string.

(** X3.  Every handler that starts by resolving the [x-token] header
    answers 401 Unauthorized, and changes nothing, when the header is
    absent or empty, when its [auth_<token>] key is not in the cache, or
    when the key holds the empty string. *)
Theorem token_required c w :
  needs_token c = true →
  session_user (request_of c) w = None →
  run (handler base64_decode sha1 path_join mime_lookup c) w
    = (Responded 401 (PError "Unauthorized"), w).
Proof.
  intros Hc Hs. destruct c as [req | req | req | req | req | req | req | req];
    try discriminate Hc; simpl in *.
  - by rewrite getDisconnect_run, Hs.
  - unfold run, FilesController.postUpload.
    by rewrite (bind_return _ _ w (Responded 401 (PError "Unauthorized")) w)
      by (by rewrite tokenUser_spec, Hs).
  - unfold run, FilesController.getShow.
    by rewrite (bind_return _ _ w (Responded 401 (PError "Unauthorized")) w)
      by (by rewrite tokenUser_spec, Hs).
  - unfold run, FilesController.getIndex.
    by rewrite (bind_return _ _ w (Responded 401 (PError "Unauthorized")) w)
      by (by rewrite tokenUser_spec, Hs).
  - unfold run, FilesController.putPublish, FilesController.setPublic.
    by rewrite (bind_return _ _ w (Responded 401 (PError "Unauthorized")) w)
      by (by rewrite tokenUser_spec, Hs).
  - unfold run, FilesController.putUnpublish, FilesController.setPublic.
    by rewrite (bind_return _ _ w (Responded 401 (PError "Unauthorized")) w)
      by (by rewrite tokenUser_spec, Hs).
Qed.

(** X4.  When [getConnect] answers 200 with a token, the request carried
    credentials, and every later request that carries that token is
    taken for the user who logged in: the first stored user with the
    email and the digest of the password of the request.  The requests
    that carry another token are taken for whom they were taken before,
    and neither the users, the nodes nor the disk have changed. *)
Theorem getConnect_opens_session req w token w' :
  run (AuthController.getConnect base64_decode sha1 req) w
    = (Responded 200 (PToken token), w') →
  token ≠ "" →
  ∃ e p u,
    credentials base64_decode req = Some (e, p) ∧
    List.find (q_email_password e (sha1 p)) (users w) = Some u ∧
    u ∈ users w ∧ email u = e ∧ password u = sha1 p ∧
    token = uuid_src w (uuid_next w) ∧
    (∀ r, x_token r = Some token → session_user r w' = Some (toHexString (user_id u))) ∧
    (∀ r, x_token r ≠ Some token → session_user r w' = session_user r w) ∧
    users w' = users w ∧ files w' = files w ∧ disk w' = disk w.
Proof.
  rewrite getConnect_run. intros H Htok.
  destruct (credentials base64_decode req) as [[e p] |]; [| done].
  destruct (List.find _ (users w)) as [u |] eqn:Hf; [| done].
  injection H as <- <-. pose proof (find_some_elem _ _ _ Hf) as [Hu Hq].
  unfold q_email_password in Hq.
  apply andb_true_iff in Hq as [He%String.eqb_eq Hp%String.eqb_eq].
  exists e, p, u. do 6 (split; [done |]). split; [| split; [| done]].
  - intros r Hr. rewrite (session_user_token _ _ _ Hr Htok).
    unfold opened; simpl. rewrite lookup_insert_eq. simpl.
    destruct (String.eqb_spec (toHexString (user_id u)) ""); [| done].
    by destruct (toHexString_nonempty (user_id u)).
  - intros r Hr. destruct (x_token r) as [t |] eqn:Ht;
      [| by rewrite !session_user_no_token by (by left)].
    destruct (decide (t = "")) as [-> | Hne];
      [by rewrite !session_user_no_token by (by right) |].
    rewrite !(session_user_token _ _ _ Ht Hne). unfold opened; simpl.
    rewrite lookup_insert_ne; [done |]. intros E%auth_key_inj. congruence.
Qed.

(** X5.  A revoke touches one session only: a request that carries
    another token is taken for whom it was taken before, and neither the
    users, the nodes nor the disk have changed. *)
Theorem getDisconnect_keeps_other_sessions req w r :
  x_token r ≠ x_token req →
  let w' := (run (AuthController.getDisconnect req) w).2 in
  session_user r w' = session_user r w ∧
  users w' = users w ∧ files w' = files w ∧ disk w' = disk w.
Proof.
  intros Hne w'. subst w'. rewrite getDisconnect_run.
  destruct (session_user req w) as [uid |] eqn:Hs; [| done].
  split; [| done]. simpl.
  destruct (x_token r) as [t |] eqn:Ht;
    [| by rewrite !session_user_no_token by (by left)].
  destruct (decide (t = "")) as [-> | Hte];
    [by rewrite !session_user_no_token by (by right) |].
  rewrite !(session_user_token _ _ _ Ht Hte). simpl.
  destruct (x_token req) as [t0 |] eqn:Ht0; [| by unfold session_user in Hs; rewrite Ht0 in Hs].
  simpl. rewrite lookup_delete_ne; [done |]. intros E%auth_key_inj. congruence.
Qed.

End Tokens.

(** ** Visibility *)

Lemma update_first_twice i u b b' l :
  Collection.update_first (q_id_userId i u) (set_isPublic b)
    (Collection.update_first (q_id_userId i u) (set_isPublic b') l)
  = Collection.update_first (q_id_userId i u) (set_isPublic b) l.
Proof.
  induction l as [| d l IH]; simpl; [done |].
  destruct (q_id_userId i u d) eqn:Hd; simpl.
  - unfold q_id_userId in *. simpl. by rewrite Hd.
  - by rewrite Hd, IH.
Qed.

Lemma update_first_same q (g : FileDocument → FileDocument) l (f : FileDoc) :
  List.find q l = Some f → g f = document f → Collection.update_first q g l = l.
Proof.
  intros Hf Hg. induction l as [| d l IH]; simpl in *; [done |].
  destruct (q d).
  - injection Hf as ->. rewrite Hg. by destruct f.
  - by rewrite IH.
Qed.

Lemma with_files_same w : with_files (files w) w = w.
Proof. by destruct w. Qed.

Lemma setPublic_refused flag req w uid u i :
  session_user req w = Some uid →
  ObjectId_of_string uid = Some u →
  ObjectId_of_string (params_id req) = Some i →
  (∀ d, d ∈ files w → _id d = i → userId d ≠ u) →
  run (FilesController.setPublic flag req) w = (Responded 404 (PError "Not found"), w).
Proof.
  intros Hs Hu Hi Hno. unfold run, FilesController.setPublic.
  rewrite (bind_continue _ _ w uid w) by (by rewrite tokenUser_spec, Hs).
  rewrite (bind_continue _ _ w i w) by (by apply ObjectId_string_ok).
  rewrite (bind_continue _ _ w u w) by (by apply ObjectId_string_ok).
  rewrite (bind_continue _ _ w None w); [done |].
  unfold Collection.findOne. rewrite find_none_intro; [done |].
  intros d Hd. destruct (q_id_userId i u d) eqn:E; [| done].
  apply q_id_userId_true in E as [E1 E2]. by destruct (Hno d Hd E1).
Qed.

(** X6.  Publishing and unpublishing are for the owner only: for an
    authenticated requester and a well-formed identifier, when no node
    with that identifier belongs to the requester, be it that none exists
    or that it is someone else's, both handlers answer 404 "Not found"
    and change nothing. *)
Theorem setPublic_owner_only req w uid u i :
  session_user req w = Some uid →
  ObjectId_of_string uid = Some u →
  ObjectId_of_string (params_id req) = Some i →
  (∀ d, d ∈ files w → _id d = i → userId d ≠ u) →
  run (FilesController.putPublish req) w = (Responded 404 (PError "Not found"), w) ∧
  run (FilesController.putUnpublish req) w = (Responded 404 (PError "Not found"), w).
Proof.
  intros Hs Hu Hi Hno.
  split; by apply (setPublic_refused _ _ _ _ _ _ Hs Hu Hi Hno).
Qed.

(** X7.  When the owner publishes a stored node and then unpublishes it,
    the node is public after the first call and private after the second;
    publishing a second time changes nothing; and a node that was private
    with [isPublic] false leaves the world, after both calls, exactly as
    it was. *)
Theorem publish_unpublish req w f :
  params_id req = toHexString (_id f) →
  lookup_file w (_id f) = Some f →
  session_user req w = Some (toHexString (userId f)) →
  let w1 := (run (FilesController.putPublish req) w).2 in
  let w2 := (run (FilesController.putUnpublish req) w1).2 in
  lookup_file w1 (_id f) = Some (republished true f) ∧
  lookup_file w2 (_id f) = Some (republished false f) ∧
  (run (FilesController.putPublish req) w1).2 = w1 ∧
  (isPublic f = JBool false → w2 = w).
Proof.
  intros Hp Hf Hs w1 w2. subst w2 w1.
  unfold FilesController.putPublish, FilesController.putUnpublish.
  rewrite (setPublic_run true req w f Hp Hf Hs). simpl.
  destruct (find_update_first (_id f) (userId f) (set_isPublic true) _ _ Hf eq_refl)
    as [Hfind Hupd].
  assert (Hf1 : lookup_file
                  (with_files (Collection.update_first (q_id_userId (_id f) (userId f))
                                 (set_isPublic true) (files w)) w)
                  (_id (republished true f)) = Some (republished true f)) by exact Hupd.
  rewrite (setPublic_run false req _ (republished true f) Hp Hf1 Hs).
  rewrite (setPublic_run true req _ (republished true f) Hp Hf1 Hs).
  simpl. rewrite !update_first_twice.
  split; [exact Hupd |]. split; [| split; [done |]].
  - unfold lookup_file. simpl.
    by destruct (find_update_first (_id f) (userId f) (set_isPublic false) _ _ Hf eq_refl).
  - intros Hpriv. unfold with_files at 1. simpl.
    rewrite (update_first_same _ _ _ f Hfind).
    + by destruct w.
    + destruct f as [i [u n t pub par lp]]. simpl in *. by subst pub.
Qed.

Section Reading.

Variable mime_lookup : string → option string.

(** X12.  For a stored node that is not a folder and that the requester
    may read: with [size] one of 100, 250 and 500 the file read is
    [<localPath>_<size>], and the answer is 404 when that file is not on
    the disk even if the blob itself is; any other [size], or none, is
    ignored and the blob itself is read. *)
Theorem getFile_size_variant req w f p :
  params_id req = toHexString (_id f) →
  lookup_file w (_id f) = Some f →
  type f ≠ JStr "folder" →
  localPath f = Some p →
  truthy (isPublic f) = true ∨ requester_is_owner req w f = true →
  let read path :=
    (match disk w !! path with
     | Some fileData =>
         Responded 200 (PData (FilesController.mimeType_of mime_lookup (name f)) fileData)
     | None => Responded 404 (PError "Not found")
     end, w) in
  (known_size (query_size req) = true →
   run (FilesController.getFile mime_lookup req) w
     = read (p +:+ "_" +:+ default "" (query_size req))) ∧
  (known_size (query_size req) = false →
   run (FilesController.getFile mime_lookup req) w = read p).
Proof.
  intros Hp Hf Ht Hl Hacc read. subst read.
  rewrite (getFile_run _ _ _ _ Hp Hf), (bool_decide_eq_false_2 _ Ht).
  assert (negb (truthy (isPublic f)) && negb (requester_is_owner req w f) = false) as ->
    by (destruct Hacc as [-> | ->]; [done | apply andb_false_r]).
  unfold filePath_of_read, FilesController.filePath_of. fold (known_size (query_size req)).
  rewrite Hl. split; intros ->; simpl; by destruct (disk w !! _).
Qed.

(** X20.  An [:id] that is not an ObjectId makes the handlers that look a
    node up throw before they ask the collection: nothing is sent and
    nothing changes.  [getFile] does so for every requester, [getShow],
    [putPublish] and [putUnpublish] once the token is resolved. *)
Theorem malformed_id_rejected req w :
  ObjectId_of_string (params_id req) = None →
  (∃ e, run (FilesController.getFile mime_lookup req) w = (Rejected e, w)) ∧
  (∀ uid, session_user req w = Some uid →
     (∃ e, run (FilesController.getShow req) w = (Rejected e, w)) ∧
     (∃ e, run (FilesController.putPublish req) w = (Rejected e, w)) ∧
     (∃ e, run (FilesController.putUnpublish req) w = (Rejected e, w))).
Proof.
  intros Hbad.
  assert (Hthrow : ObjectId (JStr (params_id req)) w
            = (Return (Rejected "Argument passed in must be a single String of 12 bytes or a string of 24 hex characters"), w))
    by (unfold ObjectId; by rewrite Hbad).
  split.
  - eexists. unfold run, FilesController.getFile.
    by rewrite (bind_return _ _ _ _ _ Hthrow).
  - intros uid Hs. repeat split; eexists;
      unfold run, FilesController.getShow, FilesController.putPublish,
        FilesController.putUnpublish, FilesController.setPublic;
      rewrite (bind_continue _ _ w uid w) by (by rewrite tokenUser_spec, Hs);
      by rewrite (bind_return _ _ _ _ _ Hthrow).
Qed.

End Reading.

(** ** Uploads *)

Lemma find_app_fresh {A} (q : A → bool) (l : list A) x :
  (∀ d, d ∈ l → q d = false) → q x = true → List.find q (l ++ [x]) = Some x.
Proof.
  intros Hl Hx. induction l as [| a l IH]; simpl.
  - by rewrite Hx.
  - rewrite (Hl a) by constructor. apply IH. intros d Hd. apply Hl. by constructor.
Qed.

Section Uploads.

Variable base64_decode : string → string.
Variable path_join : string → string → string.
Variable mime_lookup : string → option string.

(** What [persist] does besides storing the document. *)
Lemma persist_queue uid n t pub pid d w1 o w' :
  FilesController.persist base64_decode path_join uid n t pub pid d w1 = (o, w') →
  ((∃ e, o = Return (Rejected e)) ∧ disk w' = disk w1 ∧ fileQueue w' = fileQueue w1 ∧
   cache w' = cache w1 ∧ users w' = users w1) ∨
  ∃ id doc,
    o = Continue (Responded 201 (PCreated id doc)) ∧
    fileQueue w' =
      if bool_decide (t = JStr "image")
      then (fileQueue w1 ++ [thumbnail_job uid id])%list else fileQueue w1.
Proof.
  unfold FilesController.persist.
  unfold mbind, Async_bind, ObjectId, generate, Collection.insertOne, Collection.append,
    FilesController.folderPath_env, uuidv4, fsPromises.mkdir, fsPromises.writeFile,
    FilesController.Buffer_from, fileQueue_add, when, mret, Async_ret, throw.
  intros H.
  destruct (ObjectId_of_string uid) as [owner |] eqn:Ho; simpl in H;
    [| injection H as <- <-; left; by repeat split; eauto].
  destruct (strict_ne_zero pid) eqn:Hz;
    [destruct pid as [| | b | k | s]; simpl in H;
     try (injection H as <- <-; left; by repeat split; eauto);
     try (destruct (ObjectId_of_string s) as [p |] eqn:Hp; simpl in H;
          [| injection H as <- <-; left; by repeat split; eauto]) |];
    (destruct (bool_decide (t = JStr "folder")) eqn:Hf; simpl in H;
     [ injection H as <- <-; right; do 2 eexists; split; [done |];
       apply bool_decide_eq_true in Hf; subst t; by rewrite bool_decide_eq_false_2
     | destruct d; simpl in H; try (injection H as <- <-; left; by repeat split; eauto);
       destruct (bool_decide (t = JStr "image")); simpl in H;
       injection H as <- <-; right; do 2 eexists; by split ]).
Qed.

(** Every call of [postUpload] either stores nothing, or went through
    [persist] after the token and the body were accepted. *)
Lemma postUpload_effects req w o w' :
  run (FilesController.postUpload base64_decode path_join req) w = (o, w') →
  (is_created o = false ∧ files w' = files w ∧ disk w' = disk w ∧
   fileQueue w' = fileQueue w ∧ cache w' = cache w ∧ users w' = users w) ∨
  ∃ uid w1 id doc,
    o = Responded 201 (PCreated id doc) ∧
    session_user req w = Some uid ∧ passes_validation req ∧
    files w1 = files w ∧ disk w1 = disk w ∧ fileQueue w1 = fileQueue w ∧
    cache w1 = cache w ∧ users w1 = users w ∧
    FilesController.persist base64_decode path_join uid
      (body_name (body req)) (body_type (body req))
      (default_to (JBool false) (body_isPublic (body req)))
      (parentId_of req) (body_data (body req)) w1
    = (Continue (Responded 201 (PCreated id doc)), w').
Proof.
  unfold run, FilesController.postUpload. fold (parentId_of req).
  unfold mbind at 1, Async_bind at 1. rewrite tokenUser_spec.
  destruct (session_user req w) as [uid |] eqn:Hs;
    [| intros [= <- <-]; left; by repeat split].
  unfold mbind at 1, Async_bind at 1. rewrite validate_run.
  destruct (negb (truthy _)) eqn:Hn; [intros [= <- <-]; left; by repeat split |].
  destruct (_ || _) eqn:Ht; [intros [= <- <-]; left; by repeat split |].
  destruct (_ && _) eqn:Hd; [intros [= <- <-]; left; by repeat split |].
  assert (Hv : passes_validation req).
  { apply negb_false_iff in Hn. apply orb_false_iff in Ht as [_ Ht].
    apply negb_false_iff in Ht. split; [done |]. split; [done |].
    apply andb_false_iff in Hd as [Hd | Hd]; apply negb_false_iff in Hd; [by left |].
    right. by apply bool_decide_eq_true in Hd. }
  unfold mbind at 1, Async_bind at 1. rewrite checkParent_run.
  assert (Htail : ∀ w1,
    files w1 = files w → disk w1 = disk w → fileQueue w1 = fileQueue w →
    cache w1 = cache w → users w1 = users w →
    (let (e, w2) :=
       FilesController.persist base64_decode path_join uid
         (body_name (body req)) (body_type (body req))
         (default_to (JBool false) (body_isPublic (body req)))
         (parentId_of req) (body_data (body req)) w1 in
     match e with Continue o0 | Return o0 => (o0, w2) end) = (o, w') →
    (is_created o = false ∧ files w' = files w ∧ disk w' = disk w ∧
     fileQueue w' = fileQueue w ∧ cache w' = cache w ∧ users w' = users w) ∨
    ∃ uid0 w2 id doc,
      o = Responded 201 (PCreated id doc) ∧
      Some uid = Some uid0 ∧ passes_validation req ∧
      files w2 = files w ∧ disk w2 = disk w ∧ fileQueue w2 = fileQueue w ∧
      cache w2 = cache w ∧ users w2 = users w ∧
      FilesController.persist base64_decode path_join uid0
        (body_name (body req)) (body_type (body req))
        (default_to (JBool false) (body_isPublic (body req)))
        (parentId_of req) (body_data (body req)) w2
      = (Continue (Responded 201 (PCreated id doc)), w')).
  { intros w1 Hf Hdk Hq Hc Hu H.
    destruct (FilesController.persist _ _ _ _ _ _ _ _ _) as [e w2] eqn:Hp.
    pose proof (persist_created _ _ _ _ _ _ _ _ _ _ _ Hp) as Hc1.
    pose proof (persist_queue _ _ _ _ _ _ _ _ _ Hp) as Hc2.
    destruct Hc1 as [[[e1 ->] Hfiles] | (id & doc & ow & -> & _)].
    - destruct Hc2 as [(_ & ? & ? & ? & ?) | (? & ? & ? & _)]; [| done].
      injection H as <- <-. left. repeat split; congruence.
    - injection H as <- <-. right. exists uid, w1, id, doc.
      split; [done |]. split; [done |]. split; [exact Hv |]. by repeat split. }
  destruct (strict_ne_zero (parentId_of req)); cbv beta iota; [| by apply Htail].
  destruct (resolve (parentId_of req) w) as [| | pf].
  - intros [= <- <-]. left. by repeat split.
  - intros [= <- <-]. left. by destruct (parentId_of req).
  - destruct (bool_decide (type pf = JStr "folder")); cbv beta iota.
    + by apply Htail; destruct (parentId_of req).
    + intros [= <- <-]. left. by destruct (parentId_of req).
Qed.

(** X8.  Upload then download: when [postUpload] answers 201 for a file
    or an image under an identifier no stored node had, a data request
    for that identifier with no known [size] is answered 200 with the
    decoded bytes of the [data] that was sent, to the owner's token and,
    if the node was created public, to everyone; for a node created
    private every other requester is answered 404. *)
Theorem upload_then_download req w id doc w' :
  run (FilesController.postUpload base64_decode path_join req) w
    = (Responded 201 (PCreated id doc), w') →
  (∀ d, d ∈ files w → _id d ≠ id) →
  type doc ≠ JStr "folder" →
  ∃ s, body_data (body req) = JStr s ∧
    ∀ r, params_id r = toHexString id → known_size (query_size r) = false →
      (truthy (isPublic doc) = true ∨
       session_user r w' = Some (toHexString (userId doc)) →
       run (FilesController.getFile mime_lookup r) w'
         = (Responded 200 (PData (FilesController.mimeType_of mime_lookup (name doc))
                             (base64_decode s)), w')) ∧
      (truthy (isPublic doc) = false →
       session_user r w' ≠ Some (toHexString (userId doc)) →
       run (FilesController.getFile mime_lookup r) w'
         = (Responded 404 (PError "Not found"), w')).
Proof.
  intros Hrun Hfresh Hty.
  destruct (postUpload_created _ _ _ _ _ _ _ Hrun) as (uid & w1 & Hf & Hd & Hp).
  apply persist_created in Hp
    as [[[e ?] _] | (i & dc & ow & [= <- <-] & _ & _ & _ & Ht & _ & Hfiles & _ & _ & _ & Hblob)];
    [done |].
  destruct Hblob as [(Hfolder & _) | (_ & s & Hs & Hl & Hdisk)]; [congruence |].
  exists s. split; [done |]. intros r Hr Hsize.
  assert (Hlook : lookup_file w' (_id {| _id := id; document := doc |})
                  = Some {| _id := id; document := doc |}).
  { unfold lookup_file. rewrite Hfiles, Hf. apply find_app_fresh.
    - intros d Hd'. destruct (q_id id d) eqn:E; [| done].
      apply q_id_true in E. by destruct (Hfresh d Hd').
    - by apply q_id_true. }
  pose proof (getFile_run mime_lookup r w' {| _id := id; document := doc |} Hr Hlook)
    as Hget. simpl in Hget.
  rewrite (bool_decide_eq_false_2 _ Hty) in Hget.
  assert (Hread : filePath_of_read w' doc (query_size r) = Some (base64_decode s)).
  { unfold filePath_of_read, FilesController.filePath_of.
    fold (known_size (query_size r)). rewrite Hsize, Hl. simpl.
    rewrite Hdisk. apply lookup_insert_eq. }
  rewrite Hread in Hget. rewrite Hget. unfold requester_is_owner. split.
  - intros [-> | ->]; [done |]. rewrite String.eqb_refl. by rewrite andb_false_r.
  - intros -> Hne. simpl. destruct (session_user r w') as [u0 |]; [| done].
    destruct (String.eqb_spec u0 (toHexString (userId doc))); [congruence | done].
Qed.

(** X9.  Upload then show: when [postUpload] answers 201 under an
    identifier no stored node had, [getShow] with the owner's token and
    that identifier answers 200 with the node as it was created. *)
Theorem upload_then_show req w id doc w' :
  run (FilesController.postUpload base64_decode path_join req) w
    = (Responded 201 (PCreated id doc), w') →
  (∀ d, d ∈ files w → _id d ≠ id) →
  ∀ r, params_id r = toHexString id →
    session_user r w' = Some (toHexString (userId doc)) →
    run (FilesController.getShow r) w'
      = (Responded 200 (PFile {| _id := id; document := doc |}), w').
Proof.
  intros Hrun Hfresh r Hr Hs.
  destruct (postUpload_created _ _ _ _ _ _ _ Hrun) as (uid & w1 & Hf & Hd & Hp).
  apply persist_created in Hp
    as [[[e ?] _] | (i & dc & ow & [= <- <-] & _ & _ & _ & _ & _ & Hfiles & _)];
    [done |].
  rewrite (getShow_run r w' _ (userId doc) id Hs (ObjectId_of_toHexString _))
    by (rewrite Hr; apply ObjectId_of_toHexString).
  rewrite Hfiles, Hf, (find_app_fresh _ _ {| _id := id; document := doc |}); [done | |].
  - intros d Hd'. destruct (q_id_userId id (userId doc) d) eqn:E; [| done].
    apply q_id_userId_true in E as [E _]. by destruct (Hfresh d Hd').
  - by apply q_id_userId_true.
Qed.

(** X10.  The thumbnail queue: a 201 for an image adds one job, with the
    requester's user identifier and the new node's identifier; a 201 for
    a folder or a file, and every other outcome of [postUpload], leaves
    the queue as it was. *)
Theorem postUpload_thumbnail_job req w :
  let out := run (FilesController.postUpload base64_decode path_join req) w in
  (∀ id doc, out.1 = Responded 201 (PCreated id doc) →
     ∃ uid, session_user req w = Some uid ∧
       fileQueue out.2 =
         if bool_decide (type doc = JStr "image")
         then (fileQueue w ++ [thumbnail_job uid id])%list else fileQueue w) ∧
  (is_created out.1 = false → fileQueue out.2 = fileQueue w).
Proof.
  intros out. subst out.
  destruct (run _ w) as [o w'] eqn:Hrun. simpl.
  destruct (postUpload_effects _ _ _ _ Hrun)
    as [(Hno & _ & _ & Hq & _) | (uid & w1 & id & doc & -> & Hs & _ & _ & _ & Hq & _ & _ & Hp)].
  - split; [| done]. intros id doc ->. done.
  - split; [| done]. intros id' doc' [= <- <-]. exists uid. split; [done |].
    pose proof (persist_created _ _ _ _ _ _ _ _ _ _ _ Hp) as Hc.
    destruct Hc as [[[e ?] _] | (i & dc & ow & [= <- <-] & _ & _ & _ & Ht & _)]; [done |].
    apply persist_queue in Hp as [[[e ?] _] | (i & dc & [= <- <-] & Hq')]; [done |].
    by rewrite Ht, Hq', Hq.
Qed.

(** X11.  The document of a 201: its owner is the user of the token, its
    name is the truthy name that was sent, its type the allowed type that
    was sent; [isPublic] is what was sent and false when nothing was;
    and the parent is the root when [parentId] was absent or 0. *)
Theorem postUpload_created_document req w id doc w' :
  run (FilesController.postUpload base64_decode path_join req) w
    = (Responded 201 (PCreated id doc), w') →
  ∃ uid owner,
    session_user req w = Some uid ∧ ObjectId_of_string uid = Some owner ∧
    userId doc = owner ∧
    name doc = body_name (body req) ∧ truthy (name doc) = true ∧
    type doc = body_type (body req) ∧ includes allowed_types (type doc) = true ∧
    isPublic doc = default_to (JBool false) (body_isPublic (body req)) ∧
    (body_isPublic (body req) = JUndefined → isPublic doc = JBool false) ∧
    (body_parentId (body req) = JUndefined ∨ body_parentId (body req) = JNum 0 →
     parentId doc = Root).
Proof.
  intros Hrun.
  destruct (postUpload_effects _ _ _ _ Hrun)
    as [(Hno & _) | (uid & w1 & i & dc & [= <- <-] & Hs & (Hn & Ht & _) & _ & _ & _ & _ & _ & Hp)];
    [done |].
  apply persist_created in Hp
    as [[[e ?] _] | (i & dc & ow & [= <- <-] & Ho & Hu & Hnm & Hty & Hpub & _ & _ & _ & Hpar & _)];
    [done |].
  exists uid, ow. repeat split; try congruence.
  - intros E. by rewrite Hpub, E.
  - intros E. rewrite Hpar. unfold parentId_of. by destruct E as [-> | ->].
Qed.

End Uploads.

(** ** The [localPath] of a node *)

Lemma allowed_types_cases t :
  includes allowed_types t = true →
  t = JStr "folder" ∨ t = JStr "file" ∨ t = JStr "image".
Proof.
  destruct t as [| | b | n | s]; simpl; try discriminate.
  rewrite !orb_true_iff, !String.eqb_eq. intros [-> | [-> | [-> | ?]]]; by eauto.
Qed.

Section Invariant.

Variable base64_decode : string → string.
Variable sha1 : string → string.
Variable path_join : string → string → string.
Variable mime_lookup : string → option string.

(** C9.  Whatever a call of [postUpload] comes to, it either stores no
    node and writes no blob, or answers 201 and has appended exactly
    the node it answers with; that node has the type that was sent;
    when the type is folder the stored document has no [localPath];
    when it is file or image the stored document has, from that moment,
    the [localPath] under which the decoded data was just written to the
    disk.  A request with a session, a name, an allowed type, data in a
    string unless the type is folder, and the root or a stored folder as
    its parent is answered 201.  And no sequence of later calls of any
    handler adds, removes or changes the [localPath] of a stored node,
    nor its identifier or type. *)
Theorem localPath_invariant :
  (∀ req w,
     let out := run (FilesController.postUpload base64_decode path_join req) w in
     (is_created out.1 = false ∧ files out.2 = files w ∧ disk out.2 = disk w) ∨
     ∃ id doc,
       out.1 = Responded 201 (PCreated id doc) ∧
       files out.2 = (files w ++ [{| _id := id; document := doc |}])%list ∧
       type doc = body_type (body req) ∧
       ((type doc = JStr "folder" ∧ localPath doc = None) ∨
        ((type doc = JStr "file" ∨ type doc = JStr "image") ∧
         ∃ p s, localPath doc = Some p ∧ body_data (body req) = JStr s ∧
                disk out.2 !! p = Some (base64_decode s)))) ∧
  (∀ req w uid owner,
     session_user req w = Some uid → ObjectId_of_string uid = Some owner →
     passes_validation req →
     (body_type (body req) = JStr "folder" ∨ ∃ s, body_data (body req) = JStr s) →
     (strict_ne_zero (parentId_of req) = false ∨
      ∃ s pf, parentId_of req = JStr s ∧ resolve (parentId_of req) w = Resolves pf ∧
              type pf = JStr "folder") →
     ∃ id doc, (run (FilesController.postUpload base64_decode path_join req) w).1
               = Responded 201 (PCreated id doc)) ∧
  (∀ cs w k d, files w !! k = Some d →
     ∃ d', files (serve base64_decode sha1 path_join mime_lookup cs w) !! k = Some d' ∧
           _id d' = _id d ∧ type d' = type d ∧ localPath d' = localPath d).
Proof.
  split; [| split].
  - intros req w out. subst out.
    destruct (run _ w) as [o w'] eqn:Hrun. simpl.
    destruct (postUpload_effects _ _ _ _ _ _ Hrun)
      as [(Hno & Hf & Hd & _) |
          (uid & w1 & id & doc & -> & _ & (_ & Hty & _) & Hf & Hd & _ & _ & _ & Hp)];
      [by left |].
    right. exists id, doc.
    apply persist_created in Hp
      as [[[e ?] _] | (i & dc & ow & [= <- <-] & _ & _ & _ & Ht & _ & Hfiles & _ & _ & _ & Hblob)];
      [done |].
    rewrite Hf in Hfiles. split; [done |]. split; [done |]. split; [done |].
    destruct Hblob as [(Hfolder & Hl & _) | (Hne & s & Hs & Hl & Hdisk)].
    + left. by rewrite Ht.
    + right. split.
      * rewrite Ht. by destruct (allowed_types_cases _ Hty) as [? | [? | ?]]; eauto.
      * eexists _, s. split; [exact Hl |]. split; [done |].
        rewrite Hdisk. apply lookup_insert_eq.
  - intros req w uid owner Hs Ho Hv Hd Hpar.
    rewrite (postUpload_run _ _ _ _ _ Hs Hv), checkParent_run.
    assert (Hgo : ∀ w1, ∃ id doc,
      (run (FilesController.persist base64_decode path_join uid
              (body_name (body req)) (body_type (body req))
              (default_to (JBool false) (body_isPublic (body req)))
              (parentId_of req) (body_data (body req))) w1).1
      = Responded 201 (PCreated id doc)).
    { intros w1.
      edestruct (persist_succeeds base64_decode path_join uid owner (body_name (body req))
                   (body_type (body req))
                   (default_to (JBool false) (body_isPublic (body req)))
                   (parentId_of req) (body_data (body req)) w1 Ho)
        as (id & doc & w' & Hrun); [| exact Hd |].
      - destruct Hpar as [? | (s & pf & Hpid & Hr & _)]; [by left |].
        right. rewrite Hpid in Hr |- *. unfold resolve in Hr.
        destruct (ObjectId_of_string s) as [i |] eqn:Hi; [by eauto | done].
      - exists id, doc. unfold run. by rewrite Hrun. }
    destruct Hpar as [-> | (s & pf & Hpid & -> & Hf)]; [apply Hgo |].
    rewrite (bool_decide_eq_true_2 _ Hf).
    destruct (strict_ne_zero (parentId_of req)); apply Hgo.
  - intros cs w. apply serve_keeps.
Qed.

End Invariant.

(** ** What no call does *)

Lemma run_snd (h : Async Outcome) w : (run h w).2 = (h w).2.
Proof. unfold run. by destruct (h w) as [[o | o] w']. Qed.

Section Preservation.

Variable R : World → World → Prop.
Hypothesis R_refl : ∀ w, R w w.
Hypothesis R_trans : ∀ a b c, R a b → R b c → R a c.

Lemma preserves_bind {A B} (m : Async A) (k : A → Async B) :
  preserves R m → (∀ a, preserves R (k a)) → preserves R (m ≫= k).
Proof.
  intros Hm Hk w. unfold mbind, Async_bind.
  specialize (Hm w). destruct (m w) as [[a | o] w1]; simpl in *; [| done].
  eapply R_trans; [exact Hm | apply Hk].
Qed.

Lemma preserves_same {A} (m : Async A) : (∀ w, (m w).2 = w) → preserves R m.
Proof. intros H w. rewrite H. apply R_refl. Qed.

Lemma preserves_when c m : preserves R m → preserves R (when c m).
Proof. intros H. destruct c; [done |]. by apply preserves_same. Qed.

Lemma preserves_serve base64_decode sha1 path_join mime_lookup cs :
  (∀ c, preserves R (handler base64_decode sha1 path_join mime_lookup c)) →
  ∀ w, R w (serve base64_decode sha1 path_join mime_lookup cs w).
Proof.
  intros H. induction cs as [| c cs IH]; intros w; simpl; [apply R_refl |].
  eapply R_trans; [| apply IH]. rewrite run_snd. apply H.
Qed.

End Preservation.

Ltac preserve_step Hrefl Htrans prim :=
  first
    [ solve [apply (preserves_same _ Hrefl); intros; reflexivity]
    | solve [prim]
    | apply (preserves_when _ Hrefl)
    | apply (preserves_bind _ Htrans); [| intros]
    | match goal with
      | |- preserves _ (match ?x with _ => _ end) => destruct x
      | |- preserves _ (if ?c then _ else _) => destruct c
      | |- preserves _ (let _ := _ in _) => cbv zeta
      end ].

Ltac unfold_handlers :=
  unfold AuthController.getConnect, AuthController.getDisconnect,
    FilesController.postUpload, FilesController.validate, FilesController.checkParent,
    FilesController.persist, FilesController.Buffer_from, FilesController.getShow,
    FilesController.getIndex, FilesController.putPublish, FilesController.putUnpublish,
    FilesController.setPublic, FilesController.getFile, FilesController.tokenUser,
    Collection.insertOne, Collection.aggregate, RedisClient.set, ObjectId,
    Unauthorized, NotFound.

Lemma only_isPublic_refl w : only_isPublic_changes w w.
Proof. split; [done |]. intros k d H. exists d. by repeat split. Qed.

Lemma only_isPublic_trans a b c :
  only_isPublic_changes a b → only_isPublic_changes b c → only_isPublic_changes a c.
Proof.
  intros [Hu1 H1] [Hu2 H2]. split; [congruence |]. intros k d H.
  destruct (H1 k d H) as (d1 & Hd1 & E1 & E2 & E3 & E4 & E5 & E6).
  destruct (H2 k d1 Hd1) as (d2 & Hd2 & F1 & F2 & F3 & F4 & F5 & F6).
  exists d2. repeat split; congruence.
Qed.

Lemma only_isPublic_same_files w w' :
  users w' = users w → files w' = files w → only_isPublic_changes w w'.
Proof.
  intros Hu Hf. split; [done |]. intros k d H. exists d. rewrite Hf. by repeat split.
Qed.

Lemma only_isPublic_append d : preserves only_isPublic_changes (Collection.append d).
Proof.
  intros w. split; [done |]. intros k x H. exists x. split; [| by repeat split].
  simpl. rewrite lookup_app_l; [done |]. by apply lookup_lt_Some in H.
Qed.

Lemma only_isPublic_updateOne q flag :
  preserves only_isPublic_changes (Collection.updateOne q (set_isPublic flag)).
Proof.
  intros w. split; [done |]. simpl. generalize (files w). intros l.
  induction l as [| a l IH]; intros k d H; [done |]. simpl.
  destruct (q a).
  - destruct k as [| k]; simpl in *.
    + injection H as ->. eexists. split; [done |]. by repeat split.
    + exists d. by repeat split.
  - destruct k as [| k]; simpl in *; [| by apply IH].
    exists d. by repeat split.
Qed.

Lemma same_count_updateOne q flag :
  preserves same_count (Collection.updateOne q (set_isPublic flag)).
Proof.
  intros w. unfold same_count. simpl. generalize (files w). intros l.
  induction l as [| a l IH]; simpl; [done |]. destruct (q a); simpl; by rewrite ?IH.
Qed.

Lemma exits_bind {A B} l (m : Async A) (k : A → Async B) :
  exits_within l m → (∀ a, exits_within l (k a)) → exits_within l (m ≫= k).
Proof.
  intros Hm Hk w. unfold mbind, Async_bind. specialize (Hm w).
  destruct (m w) as [[a | o] w1]; simpl in *; [apply Hk | done].
Qed.

Lemma answers_bind {A} l (m : Async A) (k : A → Async Outcome) :
  exits_within l m → (∀ a, answers_within l (k a)) → answers_within l (m ≫= k).
Proof.
  intros Hm Hk w. unfold run, mbind, Async_bind. specialize (Hm w).
  destruct (m w) as [[a | o] w1]; simpl in *; [apply Hk | done].
Qed.

Lemma exits_when l c m : exits_within l m → exits_within l (when c m).
Proof. intros H. by destruct c. Qed.

Ltac answer_step :=
  first
    [ solve [intros ?; reflexivity]
    | solve [intros ?; exact I]
    | apply exits_when
    | apply exits_bind; [| intros]
    | apply answers_bind; [| intros]
    | match goal with
      | |- answers_within _ (match ?x with _ => _ end) => destruct x
      | |- answers_within _ (if ?c then _ else _) => destruct c
      | |- answers_within _ (let _ := _ in _) => cbv zeta
      | |- exits_within _ (match ?x with _ => _ end) => destruct x
      | |- exits_within _ (if ?c then _ else _) => destruct c
      | |- exits_within _ (let _ := _ in _) => cbv zeta
      end ].

Section Calls.

Variable base64_decode : string → string.
Variable sha1 : string → string.
Variable path_join : string → string → string.
Variable mime_lookup : string → option string.

Lemma handler_only_isPublic c : preserves only_isPublic_changes
    (handler base64_decode sha1 path_join mime_lookup c).
Proof.
  destruct c as [req | req | req | req | req | req | req | req]; simpl; unfold_handlers;
    repeat preserve_step only_isPublic_refl only_isPublic_trans
      ltac:(first [ apply only_isPublic_append
                  | apply only_isPublic_updateOne
                  | intros ?; apply only_isPublic_same_files; reflexivity ]).
Qed.

Lemma handler_answers c : answers_within (statuses_of c)
    (handler base64_decode sha1 path_join mime_lookup c).
Proof.
  destruct c as [req | req | req | req | req | req | req | req]; simpl; unfold_handlers;
    repeat answer_step.
Qed.

Lemma handler_same_sessions c :
  match c with
  | GET_connect _ | GET_disconnect _ => True
  | _ => preserves same_sessions (handler base64_decode sha1 path_join mime_lookup c)
  end.
Proof.
  destruct c as [req | req | req | req | req | req | req | req]; simpl; try exact I;
    unfold_handlers;
    repeat preserve_step (λ w, eq_refl (cache w))
      (λ a b c (H1 : same_sessions a b) (H2 : same_sessions b c), eq_trans H2 H1)
      ltac:(intros ?; reflexivity).
Qed.

Lemma same_blobs_trans a b c : same_blobs a b → same_blobs b c → same_blobs a c.
Proof. intros [? ?] [? ?]. split; congruence. Qed.

Lemma handler_same_blobs c :
  match c with
  | POST_files _ => True
  | _ => preserves same_blobs (handler base64_decode sha1 path_join mime_lookup c)
  end.
Proof.
  destruct c as [req | req | req | req | req | req | req | req]; simpl; try exact I;
    unfold_handlers;
    repeat preserve_step (λ w, conj (eq_refl (disk w)) (eq_refl (fileQueue w)))
      same_blobs_trans ltac:(intros ?; split; reflexivity).
Qed.

Lemma handler_same_count c :
  match c with
  | POST_files _ => True
  | _ => preserves same_count (handler base64_decode sha1 path_join mime_lookup c)
  end.
Proof.
  destruct c as [req | req | req | req | req | req | req | req]; simpl; try exact I;
    unfold_handlers;
    repeat preserve_step (λ w, eq_refl (length (files w)))
      (λ a b c (H1 : same_count a b) (H2 : same_count b c), eq_trans H2 H1)
      ltac:(first [apply same_count_updateOne | intros ?; reflexivity]).
Qed.

Lemma handler_unchanged c :
  match c with
  | GET_files_id _ | GET_files_data _ =>
      preserves unchanged (handler base64_decode sha1 path_join mime_lookup c)
  | _ => True
  end.
Proof.
  destruct c as [req | req | req | req | req | req | req | req]; simpl; try exact I;
    unfold_handlers;
    repeat preserve_step (λ w : World, eq_refl w : unchanged w w)
      (λ (a b c : World) (H1 : unchanged a b) (H2 : unchanged b c), eq_trans H2 H1)
      ltac:(fail).
Qed.

(** X15.  Across any sequence of calls the users stay as they are and
    every stored node stays where it is with its identifier, owner, name,
    type, parent and [localPath]: a node is never deleted, moved or given
    away, and [isPublic] is the one field that can change. *)
Theorem only_isPublic_ever_changes cs w :
  let w' := serve base64_decode sha1 path_join mime_lookup cs w in
  users w' = users w ∧
  ∀ k d, files w !! k = Some d →
    ∃ d', files w' !! k = Some d' ∧
      _id d' = _id d ∧ userId d' = userId d ∧ name d' = name d ∧ type d' = type d ∧
      parentId d' = parentId d ∧ localPath d' = localPath d.
Proof.
  apply (preserves_serve _ only_isPublic_refl only_isPublic_trans).
  apply handler_only_isPublic.
Qed.

(** X16.  What a call leaves alone: no handler changes the users; only
    [getConnect] and [getDisconnect] change the sessions; only
    [postUpload] changes the disk, the thumbnail queue or the number of
    stored nodes; [getShow] and [getFile] change nothing at all. *)
Theorem handler_frame c w :
  let w' := (run (handler base64_decode sha1 path_join mime_lookup c) w).2 in
  users w' = users w ∧
  match c with
  | GET_connect _ | GET_disconnect _ => True
  | _ => cache w' = cache w
  end ∧
  match c with
  | POST_files _ => True
  | _ => disk w' = disk w ∧ fileQueue w' = fileQueue w ∧
         length (files w') = length (files w)
  end ∧
  match c with
  | GET_files_id _ | GET_files_data _ => w' = w
  | _ => True
  end.
Proof.
  intros w'. subst w'. rewrite run_snd.
  pose proof (handler_only_isPublic c w) as [Hu _].
  pose proof (handler_same_sessions c) as Hs.
  pose proof (handler_same_blobs c) as Hb.
  pose proof (handler_same_count c) as Hc.
  pose proof (handler_unchanged c) as Hw.
  split; [exact Hu |].
  destruct c; simpl in *; repeat split; try exact I;
    first [apply Hs | apply Hb | apply Hc | apply Hw].
Qed.

(** X17.  The statuses of each endpoint: whenever a handler sends a
    response its status is one of those listed for it, 200 or 401 for
    [getConnect], 204 or 401 for [getDisconnect], 201, 400 or 401 for
    [postUpload], 200, 401 or 404 for [getShow], [putPublish] and
    [putUnpublish], 200 or 401 for [getIndex], 200, 400 or 404 for
    [getFile]; the only other outcome is an exception, which sends
    nothing. *)
Theorem handler_statuses c w :
  match (run (handler base64_decode sha1 path_join mime_lookup c) w).1 with
  | Responded status _ => status ∈ statuses_of c
  | Rejected _ => True
  end.
Proof.
  pose proof (handler_answers c w) as H.
  destruct (run _ w).1 as [status p | e]; [| done].
  simpl in H. apply existsb_exists in H as (x & Hx & E).
  apply Nat.eqb_eq in E. subst x. by apply list_elem_of_In.
Qed.

Lemma not_created l o :
  status_within l o = true → existsb (Nat.eqb 201) l = false → is_created o = false.
Proof.
  intros H Hl. destruct o as [status [] | e]; try done.
  unfold is_created, status_within in *.
  destruct (Nat.eqb_spec status 201) as [-> |]; [congruence | done].
Qed.

(** X18.  [getStats] answers 200 with the sizes of the two collections
    and changes nothing; across any call the number of users it reports
    stays the same, and the number of files grows by one when the call is
    a [postUpload] that answers 201 and stays the same otherwise. *)
Theorem getStats_counts c w :
  let out := run (handler base64_decode sha1 path_join mime_lookup c) w in
  let stats w0 := {| AppController.stats_users := length (users w0);
                     AppController.stats_files := length (files w0) |} in
  AppController.getStats w = (Continue (200, stats w), w) ∧
  AppController.getStats out.2 = (Continue (200, stats out.2), out.2) ∧
  length (users out.2) = length (users w) ∧
  length (files out.2) = length (files w) + (if is_created out.1 then 1 else 0).
Proof.
  intros out stats. split; [done |]. split; [done |].
  pose proof (handler_only_isPublic c w) as [Hu _].
  pose proof (handler_answers c w) as Ha.
  pose proof (handler_same_count c) as Hc.
  subst out. split; [by rewrite run_snd, Hu |].
  destruct c as [req | req | req | req | req | req | req | req];
    try (rewrite (not_created _ _ Ha eq_refl), run_snd, Nat.add_0_r; apply Hc).
  simpl. destruct (run _ w) as [o w'] eqn:Hrun. simpl.
  destruct (postUpload_effects _ _ _ _ _ _ Hrun)
    as [(-> & -> & _) | (uid & w1 & id & doc & -> & _ & _ & Hf & _ & _ & _ & _ & Hp)];
    [lia |].
  apply persist_created in Hp
    as [[[e ?] _] | (i & dc & ow & [= <- <-] & _ & _ & _ & _ & _ & Hfiles & _)];
    [done |].
  rewrite Hfiles, length_app, Hf. simpl. lia.
Qed.

End Calls.

(** ** Listing, the page parameter *)

(** X14.  For an authenticated listing with a [parentId]: a [page] that
    is absent or does not start, after white space, with a number is
    page 0; a negative [page] makes the aggregation fail with a negative
    [$skip], so that nothing is sent and nothing changes. *)
Theorem getIndex_page_edges req w uid u s p :
  session_user req w = Some uid →
  ObjectId_of_string uid = Some u →
  query_parentId req = Some s → s ≠ "" →
  (s = "0" ∧ p = Root ∨ s ≠ "0" ∧ Parent <$> ObjectId_of_string s = Some p) →
  (parseInt (query_page req) = None →
   run (FilesController.getIndex req) w = (Responded 200 (PFiles (page_of p u 0 w)), w)) ∧
  ((FilesController.page_or_0 (query_page req) < 0)%Z →
   ∃ e, run (FilesController.getIndex req) w = (Rejected e, w)).
Proof.
  intros Hs Hu Hq Hne Hpar.
  assert (Hparent :
    (if bool_decide (FilesController.parentId_or_0 (query_parentId req) = JStr "0")
     then mret Root
     else i ← ObjectId (FilesController.parentId_or_0 (query_parentId req));
          mret (Parent i)) w = (Continue p, w)).
  { unfold FilesController.parentId_or_0. rewrite Hq. simpl.
    destruct (String.eqb_spec s ""); [done |]. simpl.
    destruct Hpar as [[-> ->] | [Hs0 Hi]].
    - by rewrite bool_decide_eq_true_2.
    - rewrite bool_decide_eq_false_2 by congruence.
      destruct (ObjectId_of_string s) as [i |] eqn:Hi'; [| done]. by injection Hi as <-. }
  split.
  - intros Hnan.
    assert (Hpage : FilesController.page_or_0 (query_page req) = 0%Z)
      by (unfold FilesController.page_or_0; by rewrite Hnan).
    rewrite (getIndex_run _ _ _ _ Hs Hu) by lia. cbv zeta. rewrite Hpage.
    unfold FilesController.parentId_or_0. rewrite Hq. simpl.
    destruct (String.eqb_spec s ""); [done |]. simpl.
    destruct Hpar as [[-> ->] | [Hs0 Hi]].
    + by rewrite bool_decide_eq_true_2.
    + rewrite bool_decide_eq_false_2 by done.
      destruct (ObjectId_of_string s); [| done]. by injection Hi as <-.
  - intros Hneg. eexists. unfold run, FilesController.getIndex.
    rewrite (bind_continue _ _ w uid w) by (by rewrite tokenUser_spec, Hs).
    cbv zeta. rewrite (bind_continue _ _ _ _ _ Hparent).
    rewrite (bind_continue _ _ w u w) by (by apply ObjectId_string_ok).
    unfold mbind, Async_bind, Collection.aggregate.
    pose proof (Number_times_neg _ (Z.of_nat 20) Hneg ltac:(lia)).
    destruct (Z.ltb_spec
                (Number_times (FilesController.page_or_0 (query_page req)) (Z.of_nat 20)) 0);
      [done | lia].
Qed.

(** ** Credentials *)

Lemma split_no_sep sep a r :
  string_forall (λ c, negb (Ascii.eqb c sep)) a = true →
  split sep (a +:+ String sep r) = a :: split sep r.
Proof.
  induction a as [| c a IH]; intros H.
  - change ("" +:+ String sep r) with (String sep r). simpl.
    by rewrite Ascii.eqb_refl.
  - change (String c a +:+ String sep r) with (String c (a +:+ String sep r)).
    simpl in *. apply andb_true_iff in H as [Hc Ha].
    apply negb_true_iff in Hc. by rewrite Hc, (IH Ha).
Qed.

Section Credentials.

Variable base64_decode : string → string.
Variable sha1 : string → string.

(** X19.  The password is what stands between the first and the second
    colon: when the decoded credentials are [email:password:rest], with
    a non-empty email and password, [getConnect] looks for a user with
    that email and the digest of [password] alone, and answers as it does
    for [email:password]. *)
Theorem getConnect_second_colon req w h e p rest :
  authorization req = Some h →
  startsWith h "Basic " = true →
  toString_ascii (base64_decode (default "" (split " " h !! 1)))
    = e +:+ ":" +:+ p +:+ ":" +:+ rest →
  string_forall (λ c, negb (Ascii.eqb c ":")) e = true →
  string_forall (λ c, negb (Ascii.eqb c ":")) p = true →
  e ≠ "" → p ≠ "" →
  credentials base64_decode req = Some (e, p) ∧
  run (AuthController.getConnect base64_decode sha1 req) w =
    match List.find (q_email_password e (sha1 p)) (users w) with
    | Some u =>
        (Responded 200 (PToken (uuid_src w (uuid_next w))),
         opened (uuid_src w (uuid_next w)) u w)
    | None => (Responded 401 (PError "Unauthorized"), w)
    end.
Proof.
  intros Hh Hb Hdec He Hp Hne Hnp.
  assert (Hc : credentials base64_decode req = Some (e, p)).
  { unfold credentials. rewrite Hh, Hb, Hdec.
    assert (truthy_str (Some h) = true) as ->.
    { destruct h; [discriminate Hb | done]. }
    simpl.
    change (e +:+ ":" +:+ p +:+ ":" +:+ rest)
      with (e +:+ String ":" (p +:+ String ":" rest)).
    rewrite (split_no_sep _ _ _ He), (split_no_sep _ _ _ Hp). simpl.
    destruct (String.eqb_spec e ""); [done |].
    destruct (String.eqb_spec p ""); [done |]. done. }
  split; [done |]. rewrite getConnect_run, Hc.
  by destruct (List.find _ (users w)).
Qed.

End Credentials.

(** ** The further properties on the concrete deployment *)

Lemma Scenario_upload_b :
  run (FilesController.postUpload Scenario.base64_decode Scenario.path_join upload_b)
    Scenario.world
  = (Responded 201 (PCreated (Scenario.generated 0) uploaded_b),
     (run (FilesController.postUpload Scenario.base64_decode Scenario.path_join upload_b)
        Scenario.world).2).
Proof.
  rewrite (surjective_pairing (run _ Scenario.world)) at 1.
  apply (f_equal2 pair); [vm_compute; reflexivity | reflexivity].
Qed.

Lemma Scenario_generated_new n d :
  d ∈ files Scenario.world → _id d ≠ Scenario.generated n.
Proof. intros Hd. apply (Scenario_fresh n d); [simpl; lia | done]. Qed.

(** A session is set for a day; a key set for no time at all is gone. *)
Lemma RedisClient_set_get_witness :
  let day := (RedisClient.set "auth_carol-token" "5f1e7d35c7ba06511e683b21" 86400
                Scenario.world).2 in
  let none := (RedisClient.set "auth_alice-token" "5f1e7d35c7ba06511e683b21" 0
                 Scenario.world).2 in
  ((RedisClient.get "auth_carol-token" day).1 = Continue (Some "5f1e7d35c7ba06511e683b21") ∧
   cache day !! "auth_carol-token"
     = Some {| entry_value := "5f1e7d35c7ba06511e683b21"; entry_ttl := Some 86400%Z |}) ∧
  (RedisClient.get "auth_alice-token" none).1 = Continue None.
Proof.
  intros day none. split.
  - apply (proj1 (RedisClient_set_get "auth_carol-token" "5f1e7d35c7ba06511e683b21" 86400
                    Scenario.world)).
    split; [reflexivity | by vm_compute].
  - apply (proj1 (proj2 (RedisClient_set_get "auth_alice-token" "5f1e7d35c7ba06511e683b21" 0
                           Scenario.world))).
    by vm_compute.
Defined.

(** Alice uploads [b.txt]: the node is stored with the path of its blob;
    then she publishes it and Bob uploads an image: the node keeps its
    [localPath]. *)
Lemma localPath_invariant_witness :
  let out := run (FilesController.postUpload Scenario.base64_decode Scenario.path_join
                    upload_b) Scenario.world in
  let calls :=
    [PUT_publish (Scenario.request None (Some "alice-token") Scenario.no_body
                    "000000000000000000000000");
     POST_files (Scenario.creation "bob-token" (JStr "c.png") (JStr "image")
                   (JStr "5f1e8896c7ba06511e683b27") (JStr "aGk="))] in
  (∃ id doc, out.1 = Responded 201 (PCreated id doc)) ∧
  (∃ id doc p,
     files out.2 = (files Scenario.world ++ [{| _id := id; document := doc |}])%list ∧
     type doc = JStr "file" ∧ localPath doc = Some p ∧ disk out.2 !! p = Some "hi") ∧
  ∃ d', files (serve Scenario.base64_decode Scenario.digest Scenario.path_join
                 Scenario.mime_lookup calls out.2) !! 3 = Some d' ∧
        _id d' = Scenario.generated 0 ∧ type d' = JStr "file" ∧
        localPath d' = Some "/tmp/files_manager/2cd2f2b1-9c5d-4a0e-8b4e-000000000000".
Proof.
  intros out calls.
  pose proof (localPath_invariant Scenario.base64_decode Scenario.digest Scenario.path_join
                Scenario.mime_lookup) as (Hstored & Hcreates & Hkept).
  split; [| split].
  - apply (Hcreates upload_b Scenario.world "5f1e7d35c7ba06511e683b21" Scenario.alice_id
             eq_refl eq_refl (conj eq_refl (conj eq_refl (or_introl eq_refl)))
             (or_intror (ex_intro _ "aGk=" eq_refl)) (or_introl eq_refl)).
  - destruct (Hstored upload_b Scenario.world)
      as [(Hno & _) | (id & doc & _ & Hfiles & Hty & Hkind)].
    + exfalso. vm_compute in Hno. discriminate Hno.
    + destruct Hkind as [(Hfolder & _) | (_ & p & s & Hl & Hs & Hdisk)].
      * exfalso. rewrite Hty in Hfolder. discriminate Hfolder.
      * exists id, doc, p. split; [exact Hfiles |]. split; [exact Hty |].
        split; [exact Hl |]. injection Hs as <-. exact Hdisk.
  - apply (Hkept calls out.2 3
             {| _id := Scenario.generated 0; document := uploaded_b |}).
    vm_compute. reflexivity.
Defined.

(** A listing without a token. *)
Lemma token_required_witness :
  run (handler Scenario.base64_decode Scenario.digest Scenario.path_join
         Scenario.mime_lookup (GET_files (Scenario.listing None None None)))
    Scenario.world
  = (Responded 401 (PError "Unauthorized"), Scenario.world).
Proof.
  apply (token_required Scenario.base64_decode Scenario.digest Scenario.path_join
           Scenario.mime_lookup (GET_files (Scenario.listing None None None))
           Scenario.world eq_refl eq_refl).
Defined.

(** Alice logs in: her token is then taken for her. *)
Lemma getConnect_opens_session_witness :
  let req := Scenario.request (Some "Basic YWxpY2VAZXhhbXBsZS5jb206c2VjcmV0") None
               Scenario.no_body "" in
  let w' := (run (AuthController.getConnect Scenario.base64_decode Scenario.digest req)
               Scenario.world).2 in
  ∃ e p u,
    credentials Scenario.base64_decode req = Some (e, p) ∧
    List.find (q_email_password e (Scenario.digest p)) (users Scenario.world) = Some u ∧
    u ∈ users Scenario.world ∧ email u = e ∧ password u = Scenario.digest p ∧
    Scenario.uuid 0 = uuid_src Scenario.world (uuid_next Scenario.world) ∧
    (∀ r, x_token r = Some (Scenario.uuid 0) →
          session_user r w' = Some (toHexString (user_id u))) ∧
    (∀ r, x_token r ≠ Some (Scenario.uuid 0) →
          session_user r w' = session_user r Scenario.world) ∧
    users w' = users Scenario.world ∧ files w' = files Scenario.world ∧
    disk w' = disk Scenario.world.
Proof.
  intros req w'.
  apply (getConnect_opens_session Scenario.base64_decode Scenario.digest req
           Scenario.world (Scenario.uuid 0) w').
  - subst w'. rewrite (surjective_pairing (run _ Scenario.world)) at 1.
    apply (f_equal2 pair); [vm_compute; reflexivity | reflexivity].
  - vm_compute. discriminate.
Defined.

(** Alice logs out: Bob's token still stands for Bob. *)
Lemma getDisconnect_keeps_other_sessions_witness :
  let req := Scenario.request None (Some "alice-token") Scenario.no_body "" in
  let r := Scenario.request None (Some "bob-token") Scenario.no_body "" in
  let w' := (run (AuthController.getDisconnect req) Scenario.world).2 in
  session_user r w' = session_user r Scenario.world ∧
  users w' = users Scenario.world ∧ files w' = files Scenario.world ∧
  disk w' = disk Scenario.world.
Proof.
  intros req r w'.
  apply (getDisconnect_keeps_other_sessions req Scenario.world r). discriminate.
Defined.

(** Bob tries to publish Alice's file. *)
Lemma setPublic_owner_only_witness :
  let req := Scenario.request None (Some "bob-token") Scenario.no_body
               "5f1e8896c7ba06511e683b26" in
  run (FilesController.putPublish req) Scenario.world
    = (Responded 404 (PError "Not found"), Scenario.world) ∧
  run (FilesController.putUnpublish req) Scenario.world
    = (Responded 404 (PError "Not found"), Scenario.world).
Proof.
  intros req.
  apply (setPublic_owner_only req Scenario.world "5f1e7d35c7ba06511e683b22"
           Scenario.bob_id Scenario.a_txt_id eq_refl eq_refl eq_refl).
  intros d Hd. simpl in Hd. unfold Scenario.world in Hd. simpl in Hd.
  repeat (apply elem_of_cons in Hd as [-> | Hd]; [by (intros; discriminate) |]).
  by apply elem_of_nil in Hd.
Defined.

(** Alice publishes her file and unpublishes it. *)
Lemma publish_unpublish_witness :
  let req := Scenario.request None (Some "alice-token") Scenario.no_body
               "5f1e8896c7ba06511e683b26" in
  let w1 := (run (FilesController.putPublish req) Scenario.world).2 in
  let w2 := (run (FilesController.putUnpublish req) w1).2 in
  lookup_file w1 Scenario.a_txt_id = Some (republished true Scenario.a_txt) ∧
  lookup_file w2 Scenario.a_txt_id = Some (republished false Scenario.a_txt) ∧
  (run (FilesController.putPublish req) w1).2 = w1 ∧
  (isPublic Scenario.a_txt = JBool false → w2 = Scenario.world).
Proof.
  intros req.
  apply (publish_unpublish req Scenario.world Scenario.a_txt eq_refl eq_refl eq_refl).
Defined.

(** Alice uploads [b.txt] and reads it back. *)
Lemma upload_then_download_witness :
  let w' := (run (FilesController.postUpload Scenario.base64_decode Scenario.path_join
                    upload_b) Scenario.world).2 in
  ∃ s, body_data (body upload_b) = JStr s ∧
    ∀ r, params_id r = toHexString (Scenario.generated 0) →
      known_size (query_size r) = false →
      (truthy (isPublic uploaded_b) = true ∨
       session_user r w' = Some (toHexString (userId uploaded_b)) →
       run (FilesController.getFile Scenario.mime_lookup r) w'
         = (Responded 200
              (PData (FilesController.mimeType_of Scenario.mime_lookup (name uploaded_b))
                 (Scenario.base64_decode s)), w')) ∧
      (truthy (isPublic uploaded_b) = false →
       session_user r w' ≠ Some (toHexString (userId uploaded_b)) →
       run (FilesController.getFile Scenario.mime_lookup r) w'
         = (Responded 404 (PError "Not found"), w')).
Proof.
  intros w'.
  apply (upload_then_download Scenario.base64_decode Scenario.path_join
           Scenario.mime_lookup upload_b Scenario.world (Scenario.generated 0) uploaded_b
           w' Scenario_upload_b (Scenario_generated_new 0)).
  discriminate.
Defined.

(** Alice uploads [b.txt] and asks for its description. *)
Lemma upload_then_show_witness :
  let w' := (run (FilesController.postUpload Scenario.base64_decode Scenario.path_join
                    upload_b) Scenario.world).2 in
  let r := Scenario.request None (Some "alice-token") Scenario.no_body
             "000000000000000000000000" in
  run (FilesController.getShow r) w'
    = (Responded 200 (PFile {| _id := Scenario.generated 0; document := uploaded_b |}),
       w').
Proof.
  intros w' r.
  apply (upload_then_show Scenario.base64_decode Scenario.path_join upload_b
           Scenario.world (Scenario.generated 0) uploaded_b w' Scenario_upload_b
           (Scenario_generated_new 0) r).
  - vm_compute. reflexivity.
  - vm_compute. reflexivity.
Defined.

(** The document of Alice's upload. *)
Lemma postUpload_created_document_witness :
  ∃ uid owner,
    session_user upload_b Scenario.world = Some uid ∧
    ObjectId_of_string uid = Some owner ∧
    userId uploaded_b = owner ∧
    name uploaded_b = body_name (body upload_b) ∧ truthy (name uploaded_b) = true ∧
    type uploaded_b = body_type (body upload_b) ∧
    includes allowed_types (type uploaded_b) = true ∧
    isPublic uploaded_b = default_to (JBool false) (body_isPublic (body upload_b)) ∧
    (body_isPublic (body upload_b) = JUndefined → isPublic uploaded_b = JBool false) ∧
    (body_parentId (body upload_b) = JUndefined ∨ body_parentId (body upload_b) = JNum 0 →
     parentId uploaded_b = Root).
Proof.
  apply (postUpload_created_document Scenario.base64_decode Scenario.path_join upload_b
           Scenario.world (Scenario.generated 0) uploaded_b _ Scenario_upload_b).
Defined.

(** Alice asks for the size 100 of her file: there is no such file. *)
Lemma getFile_size_variant_witness :
  let req := data_request (Some "alice-token") "5f1e8896c7ba06511e683b26" (Some "100") in
  run (FilesController.getFile Scenario.mime_lookup req) Scenario.world
    = (Responded 404 (PError "Not found"), Scenario.world).
Proof.
  intros req.
  apply (proj1 (getFile_size_variant Scenario.mime_lookup req Scenario.world Scenario.a_txt
                  "/tmp/files_manager/0b9d5a0c" eq_refl eq_refl ltac:(discriminate)
                  eq_refl (or_intror eq_refl)) eq_refl).
Defined.

(** Alice lists the root with [parentId=0] and, as [page], a no-break
    space and the digit 1: page 1 is what she gets. *)
Lemma getIndex_explicit_parentId_witness :
  let req := Scenario.listing (Some "alice-token") (Some "0")
               (Some (String "160" "1")) in
  FilesController.page_or_0 (query_page req) = 1%Z ∧
  run (FilesController.getIndex req) Scenario.world
    = (Responded 200 (PFiles (page_of Root Scenario.alice_id 1 Scenario.world)),
       Scenario.world).
Proof.
  intros req. split; [reflexivity |].
  apply (getIndex_explicit_parentId req Scenario.world "5f1e7d35c7ba06511e683b21"
           Scenario.alice_id "0" Root eq_refl eq_refl eq_refl ltac:(discriminate)
           (or_introl (conj eq_refl eq_refl)) ltac:(done) ltac:(done)).
Defined.

(** Alice lists the root with [page=abc], then with [page=-1]. *)
Lemma getIndex_page_edges_witness :
  let req := Scenario.listing (Some "alice-token") (Some "0") (Some "abc") in
  let neg := Scenario.listing (Some "alice-token") (Some "0") (Some "-1") in
  run (FilesController.getIndex req) Scenario.world
    = (Responded 200 (PFiles (page_of Root Scenario.alice_id 0 Scenario.world)),
       Scenario.world) ∧
  ∃ e, run (FilesController.getIndex neg) Scenario.world = (Rejected e, Scenario.world).
Proof.
  intros req neg. split.
  - apply (proj1 (getIndex_page_edges req Scenario.world "5f1e7d35c7ba06511e683b21"
                    Scenario.alice_id "0" Root eq_refl eq_refl eq_refl ltac:(discriminate)
                    (or_introl (conj eq_refl eq_refl))) eq_refl).
  - apply (proj2 (getIndex_page_edges neg Scenario.world "5f1e7d35c7ba06511e683b21"
                    Scenario.alice_id "0" Root eq_refl eq_refl eq_refl ltac:(discriminate)
                    (or_introl (conj eq_refl eq_refl))) eq_refl).
Defined.

(** Alice logs in with [alice@example.com:secret:extra]. *)
Lemma getConnect_second_colon_witness :
  let req := Scenario.request (Some "Basic YWxpY2VAZXhhbXBsZS5jb206c2VjcmV0OmV4dHJh") None
               Scenario.no_body "" in
  credentials Scenario.base64_decode req = Some ("alice@example.com", "secret").
Proof.
  intros req.
  apply (proj1 (getConnect_second_colon Scenario.base64_decode Scenario.digest req
                  Scenario.world "Basic YWxpY2VAZXhhbXBsZS5jb206c2VjcmV0OmV4dHJh"
                  "alice@example.com" "secret" "extra" eq_refl eq_refl eq_refl eq_refl
                  eq_refl ltac:(discriminate) ltac:(discriminate))).
Defined.

(** Alice asks for the node [invalid-id]. *)
Lemma malformed_id_rejected_witness :
  let req := Scenario.request None (Some "alice-token") Scenario.no_body "invalid-id" in
  ∃ e, run (FilesController.getShow req) Scenario.world = (Rejected e, Scenario.world).
Proof.
  intros req.
  apply (proj2 (malformed_id_rejected Scenario.mime_lookup req Scenario.world eq_refl)
           "5f1e7d35c7ba06511e683b21" eq_refl).
Defined.
